(** * DiffuPy input validation

    A shallow embedding of [src/diffupy/validate_inputs.py]: the three
    validators [_validate_scores], [_validate_graph] and [_validate_K],
    written in a small state-and-exception monad over the object that the
    caller passes in, followed by the properties of the validators. *)

From Stdlib Require Import String Ascii List ZArith Bool Arith Lia.
From Stdlib Require Import DecimalString SpecFloat.
Import ListNotations.

Open Scope string_scope.
Open Scope list_scope.

(** ** Python values *)

Module Py.

(** Python [float]: IEEE 754 binary64. *)
Definition float : Type := spec_float.
Definition prec : Z := 53.
Definition emax : Z := 1024.

Definition fadd : float -> float -> float := SFadd prec emax.
Definition fsub : float -> float -> float := SFsub prec emax.
Definition fmul : float -> float -> float := SFmul prec emax.
Definition fdiv : float -> float -> float := SFdiv prec emax.
Definition fsqrt : float -> float := SFsqrt prec emax.
Definition feqb : float -> float -> bool := SFeqb.
Definition fltb : float -> float -> bool := SFltb.

Definition fzero : float := S754_zero false.
Definition fnan : float := S754_nan.
Definition finf : float := S754_infinity false.

(** Conversion of an integer, rounding to nearest even. *)
Definition float_of_Z (z : Z) : float := binary_normalize prec emax z 0 false.

Definition is_finite (f : float) : bool :=
  match f with
  | S754_zero _ | S754_finite _ _ _ => true
  | S754_infinity _ | S754_nan => false
  end.

(** The values a matrix cell or an edge attribute can hold. *)
Inductive value : Type :=
| VNone
| VStr (s : string)
| VInt (z : Z)
| VFloat (f : float).

(** A row, column or node label: a string, or [None]. *)
Definition label : Type := option string.

(** Truth value of a string and of a list: non-empty. *)
Definition str_truthy (s : string) : bool :=
  match s with EmptyString => false | String _ _ => true end.

Definition list_truthy {A : Type} (l : list A) : bool :=
  match l with [] => false | _ :: _ => true end.

(** [sub in s] on strings. *)
Fixpoint str_contains (sub s : string) : bool :=
  String.prefix sub s
  || match s with
     | EmptyString => false
     | String _ s' => str_contains sub s'
     end.

(** [v is None]. *)
Definition is_None (v : value) : bool :=
  match v with VNone => true | _ => false end.

(** [v is [...]], with a list display on the right: the display builds a
    new object, which no existing value is identical to. *)
Definition is_fresh_list (v : value) (display : list value) : bool := false.

Definition isinstance_float (v : value) : bool :=
  match v with VFloat _ => true | _ => false end.

Definition isinstance_int (v : value) : bool :=
  match v with VInt _ => true | _ => false end.

(** [v == w] between a value and a string or [None] constant. *)
Definition value_eq_const (v w : value) : bool :=
  match v, w with
  | VNone, VNone => true
  | VStr s, VStr t => String.eqb s t
  | _, _ => false
  end.

(** [v in [c1, ..., cn]], the [ci] strings or [None]. *)
Definition value_in (v : value) (cs : list value) : bool :=
  existsb (value_eq_const v) cs.

Definition label_eqb (a b : label) : bool :=
  match a, b with
  | None, None => true
  | Some s, Some t => String.eqb s t
  | _, _ => false
  end.

Definition label_eq_dec (a b : label) : {a = b} + {a <> b}.
Proof. decide equality; apply string_dec. Defined.

(** [l in [c1, ..., cn]] for a label. *)
Definition label_in (l : label) (cs : list label) : bool :=
  existsb (label_eqb l) cs.

(** [a == b] on lists of labels: same length, equal entry for entry. *)
Fixpoint labels_eqb (a b : list label) : bool :=
  match a, b with
  | [], [] => true
  | x :: a', y :: b' => label_eqb x y && labels_eqb a' b'
  | _, _ => false
  end.

(** [v == 0]. *)
Definition eq_zero (v : value) : bool :=
  match v with
  | VFloat f => feqb f fzero
  | VInt z => Z.eqb z 0
  | _ => false
  end.

(** [str(n)] for a non-negative integer, [str(l)] for a label. *)
Definition str_of_nat (n : nat) : string :=
  NilZero.string_of_uint (Nat.to_uint n).

Definition str_of_label (l : label) : string :=
  match l with Some s => s | None => "None" end.

(** [any(xs)]. *)
Definition any {A : Type} (truthy : A -> bool) (xs : list A) : bool :=
  existsb truthy xs.

(** [b is None] for a [bool]: [True] and [False] are not [None]. *)
Definition bool_is_None (b : bool) : bool := false.

(** [b < z] for a [bool], which compares as the integer 0 or 1. *)
Definition bool_lt (b : bool) (z : Z) : bool := Z.ltb (Z.b2z b) z.

End Py.

(** ** Exceptions and the validator monad *)

Inductive exn : Type :=
| ValueError (msg : string)
| Warning (msg : string)
| TypeError (msg : string).

Inductive result (A : Type) : Type :=
| Returned (a : A)
| Raised (e : exn).
Arguments Returned {A} a.
Arguments Raised {A} e.

(** A computation over a store of type [S]: the object the validator was
    handed.  It ends by returning or by raising, and leaves a store. *)
Definition M (S A : Type) : Type := S -> result A * S.

Definition ret {S A : Type} (a : A) : M S A := fun s => (Returned a, s).

Definition bind {S A B : Type} (c : M S A) (k : A -> M S B) : M S B :=
  fun s =>
    match c s with
    | (Returned a, s') => k a s'
    | (Raised e, s') => (Raised e, s')
    end.

Definition raise {S A : Type} (e : exn) : M S A := fun s => (Raised e, s).

(** Attribute access and other reads of the store. *)
Definition read {S A : Type} (f : S -> A) : M S A := fun s => (Returned (f s), s).

(** Assignment to the store (attribute or item assignment on the input). *)
Definition assign {S : Type} (s' : S) : M S unit := fun _ => (Returned tt, s').

Declare Scope py_scope.
Delimit Scope py_scope with py.
Notation "x <- c ;; k" := (bind c (fun x => k))
  (at level 61, c at next level, right associativity) : py_scope.
Notation "c ;; k" := (bind c (fun _ => k))
  (at level 61, right associativity) : py_scope.
Open Scope py_scope.

(** [if b: body]. *)
Definition when {S : Type} (b : bool) (body : M S unit) : M S unit :=
  if b then body else ret tt.

(** [for x in xs: body]. *)
Fixpoint for_each {S A : Type} (xs : list A) (body : A -> M S unit) : M S unit :=
  match xs with
  | [] => ret tt
  | x :: xs' => body x ;; for_each xs' body
  end.

(** A library call that may raise. *)
Definition call {S A : Type} (r : exn + A) : M S A :=
  match r with
  | inl e => raise e
  | inr a => ret a
  end.

Definition outcome {S A : Type} (c : M S A) (s : S) : result A := fst (c s).
Definition final_store {S A : Type} (c : M S A) (s : S) : S := snd (c s).

(** A computation that leaves the store as it found it. *)
Definition read_only {S A : Type} (c : M S A) : Prop :=
  forall s, final_store c s = s.

(** A computation that ends without raising. *)
Definition returns_normally {S A : Type} (c : M S A) (s : S) : Prop :=
  exists a, outcome c s = Returned a.

(** ** NumPy arrays

    The NumPy functions that the validators call ([np.std], [np.unique])
    build a new array and leave their argument as it is; they are functions
    of the array's content here. *)

Module Np.
Import Py.

(** Element category of an array, and the text of [str(a.dtype)]. *)
Inductive dtype_kind : Type := Floating | Integer | Other.

Definition dtype_str (d : dtype_kind) : string :=
  match d with
  | Floating => "float64"
  | Integer => "int64"
  | Other => "object"
  end.

(** A two-dimensional array, stored by rows. *)
Record ndarray : Type := {
  dtype : dtype_kind;
  shape : nat * nat;
  data : list (list value)
}.

Definition n_rows (a : ndarray) : nat := fst (shape a).
Definition n_cols (a : ndarray) : nat := snd (shape a).

(** The stored rows agree with [shape]. *)
Definition rectangular (a : ndarray) : Prop :=
  length (data a) = n_rows a /\
  Forall (fun r => length r = n_cols a) (data a).

Definition column (a : ndarray) (j : nat) : list value :=
  map (fun r => nth j r VNone) (data a).

Definition as_float (v : value) : option float :=
  match v with
  | VFloat f => Some f
  | VInt z => Some (float_of_Z z)
  | _ => None
  end.

Fixpoint as_floats (vs : list value) : option (list float) :=
  match vs with
  | [] => Some []
  | v :: vs' =>
      match as_float v, as_floats vs' with
      | Some f, Some fs => Some (f :: fs)
      | _, _ => None
      end
  end.

(** [add.reduce]: the first element, then the others added in order. *)
Definition fsum (xs : list float) : float :=
  match xs with
  | [] => fzero
  | x :: xs' => fold_left fadd xs' x
  end.

(** [np.std] of one column ([ddof = 0]): the mean is the sum divided by the
    count; the deviations are squared, summed and divided by the count; the
    result is the square root. *)
Definition std_column (xs : list float) : float :=
  let n := float_of_Z (Z.of_nat (length xs)) in
  let mean := fdiv (fsum xs) n in
  let sq := map (fun x => let d := fsub x mean in fmul d d) xs in
  fsqrt (fdiv (fsum sq) n).

Fixpoint std_columns (a : ndarray) (js : list nat) : option (list float) :=
  match js with
  | [] => Some []
  | j :: js' =>
      match as_floats (column a j), std_columns a js' with
      | Some xs, Some sds => Some (std_column xs :: sds)
      | _, _ => None
      end
  end.

(** [np.std(a, axis=0)]: one standard deviation per column.  NumPy has no
    loop for arrays that are not of a floating or integer type, nor for
    cells that are not numbers, and raises [TypeError]. *)
Definition std_axis0 (a : ndarray) : exn + list float :=
  match dtype a with
  | Other => inl (TypeError "np.std: no loop for this element type")
  | _ =>
      match std_columns a (seq 0 (n_cols a)) with
      | Some sds => inr sds
      | None => inl (TypeError "np.std: no loop for this element type")
      end
  end.

(** [len(np.unique(xs))]: the number of distinct entries. *)
Definition unique_len {A : Type} (eq_dec : forall x y : A, {x = y} + {x <> y})
    (xs : list A) : nat :=
  length (nodup eq_dec xs).

End Np.

(** ** The labelled matrix of [diffupy.matrix] *)

Module Mat.
Import Py Np.

(** Modelled from the spec: the class [Matrix] of [diffupy.matrix] is not
    part of the sources at hand.  The spec describes it as a 2D numeric
    container with an ordered sequence of row labels and an ordered sequence
    of column labels, whose backing store reports its element category. *)
Record Matrix : Type := {
  mat : ndarray;
  rows_labels : list label;
  cols_labels : list label
}.

(** The label sequences have the lengths of the respective dimensions. *)
Definition labelled (m : Matrix) : Prop :=
  rectangular (mat m) /\
  length (rows_labels m) = n_rows (mat m) /\
  length (cols_labels m) = n_cols (mat m).

(** Modelled from the spec: iteration over a [Matrix] is not part of the
    sources at hand.  The spec describes an iteration capability yielding
    (value, column label, row label) triples covering every cell exactly
    once; the traversal chosen here is row by row, it reads the matrix
    without changing it, and a cell of a floating-point or integer array is
    yielded as an instance of [float] or of [int]. *)
Definition iter (m : Matrix) : list (value * label * label) :=
  flat_map
    (fun '(row, row_label) =>
       map (fun '(v, col_label) => (v, col_label, row_label))
           (combine row (cols_labels m)))
    (combine (data (mat m)) (rows_labels m)).

(** [Matrix(np.std(...), ['sd'], cols)]: the vector of standard deviations
    as a matrix of one row labelled ['sd']. *)
Definition of_std (sds : list float) (cols : list label) : Matrix :=
  {| mat := {| dtype := Floating;
               shape := (1, length sds);
               data := [map VFloat sds] |};
     rows_labels := [Some "sd"];
     cols_labels := cols |}.

End Mat.

(** ** NetworkX graphs *)

Module Nx.
Import Py.

(** A node with its ['name'] attribute; an edge with its ['weight']
    attribute, [None] when the edge carries none. *)
Record node : Type := { node_id : nat; name : string }.
Record edge : Type := { source : nat; target : nat; weight : option value }.

Record Graph : Type := {
  directed : bool;
  nodes : list node;
  edges : list edge
}.

(** [nx.is_directed(g)]. *)
Definition is_directed (g : Graph) : bool := directed g.

(** [nx.get_edge_attributes(g, attribute)]: a dictionary from the edges that
    carry the attribute to its value, here in edge order.  ['weight'] is the
    one edge attribute of the model. *)
Definition get_edge_attributes (g : Graph) (attribute : string)
  : list (nat * nat * value) :=
  flat_map
    (fun e =>
       match weight e with
       | Some w => if String.eqb attribute "weight"
                   then [(source e, target e, w)] else []
       | None => []
       end)
    (edges g).

(** Truth value of a dictionary key [(u, v)]: a tuple of two entries. *)
Definition key_truthy (k : nat * nat * value) : bool := true.

(** Modelled from the spec: [get_label_list_graph] of
    [diffupy.miscellaneous] is not part of the sources at hand.  The spec
    describes it as returning the ordered sequence of attribute values, one per
    node, in a stable node order.  ['name'] is the one node attribute of the
    model. *)
Definition get_label_list_graph (g : Graph) (attribute : string) : list string :=
  if String.eqb attribute "name" then map name (nodes g) else [].

End Nx.

(** ** What a caller can pass to a validator *)

Inductive pyobj : Type :=
| ObjNone
| ObjStr (s : string)
| ObjGraph (g : Nx.Graph)
| ObjMatrix (m : Mat.Matrix).

(** [o == c] for a constant [c] that is [None] or a string.  Graphs and
    matrices compare by identity and are equal to neither. *)
Definition obj_eq_const (o c : pyobj) : bool :=
  match o, c with
  | ObjNone, ObjNone => true
  | ObjStr s, ObjStr t => String.eqb s t
  | _, _ => false
  end.

(** [o in [c1, ..., cn]]. *)
Definition obj_in (o : pyobj) (cs : list pyobj) : bool :=
  existsb (obj_eq_const o) cs.

(** [names in [None, 'NA', 'Nan']] for a list [names]: a list is equal to
    neither [None] nor a string. *)
Definition list_in_consts {A : Type} (names : list A) (cs : list pyobj) : bool :=
  existsb (fun _ => false) cs.

(** ** The validators *)

Import Py Np Mat Nx.

(** *** [_validate_scores] *)

(** Lines 21-25: the label lists. *)
Definition scores_check_labels : M Matrix unit :=
  cols <- read cols_labels ;;
  when (negb (list_truthy cols))
    (raise (ValueError
       "Scores must be a named list but supplied list contains no names.")) ;;
  rows <- read rows_labels ;;
  when (negb (list_truthy rows))
    (raise (ValueError
       "Scores must be a named list but supplied list contains no names.")).

(** Lines 27-29: [if not 'float' and 'int' in str(scores.mat.dtype)]. *)
Definition scores_check_dtype : M Matrix unit :=
  dt <- read (fun scores => dtype_str (dtype (mat scores))) ;;
  when (negb (str_truthy "float") && str_contains "int" dt)
    (raise (ValueError "The scores in background are not numeric.")).

(** Lines 33-45: the body of the loop over the cells. *)
Definition scores_check_cell (cell : value * label * label) : M Matrix unit :=
  let '(score, col_label, row_label) := cell in
  (if is_None score then
     raise (ValueError "Scores input cannot contain None.")
   else if is_fresh_list score [VStr "NA"; VStr "Nan"; VStr "nan"] then
     raise (ValueError "Scores input cannot contain NA values.")
   else if negb (isinstance_float score) && negb (isinstance_int score) then
     raise (ValueError "The scores in background are not numeric.")
   else ret tt) ;;
  when (label_in col_label [Some "Nan"; None])
    (raise (ValueError
       "The scores in background must have row names according to the scored nodes.")) ;;
  when (label_in row_label [Some "Nan"; None])
    (raise (ValueError
       "The scores in background must have col names to differentiate score sets.")).

(** Lines 31-45. *)
Definition scores_check_elements : M Matrix unit :=
  cells <- read iter ;;
  for_each cells scores_check_cell.

(** Lines 50-53: the body of the loop over the standard deviations. *)
Definition scores_check_sd (cell : value * label * label) : M Matrix unit :=
  let '(sd, col_label, row_label) := cell in
  when (value_in sd [VStr "Nan"; VNone])
    (raise (ValueError
       ("Standard deviation in background is NA in column:"
          ++ str_of_label col_label))) ;;
  when (eq_zero sd)
    (raise (ValueError
       ("Standard deviation in background is 0 in column:"
          ++ str_of_label col_label))).

(** Lines 47-53. *)
Definition scores_check_std : M Matrix unit :=
  a <- read mat ;;
  sds <- call (std_axis0 a) ;;
  cols <- read cols_labels ;;
  let std_mat := of_std sds cols in
  for_each (iter std_mat) scores_check_sd.

Definition _validate_scores : M Matrix unit :=
  scores_check_labels ;;
  scores_check_dtype ;;
  scores_check_elements ;;
  scores_check_std.

(** *** [_validate_graph] *)

(** Lines 65-83, once [graph] is known to be a NetworkX graph. *)
Definition graph_checks (g : Graph) : M pyobj unit :=
  let nodes_names := get_label_list_graph g "name" in
  when (list_in_consts nodes_names [ObjNone; ObjStr "NA"; ObjStr "Nan"])
    (raise (ValueError "'graph' must have node names.")) ;;
  when (bool_is_None (any str_truthy nodes_names))
    (raise (ValueError "'graph' cannot have NA as node names")) ;;
  when (negb (unique_len string_dec nodes_names =? length nodes_names)%nat)
    (raise (ValueError
       "'graph' has non-unique names! Please check that the names are unique.")) ;;
  when (is_directed g)
    (raise (Warning "graph' should be an undirected NetworkX graph object.")) ;;
  let edge_weights := get_edge_attributes g "weight" in
  when (list_truthy edge_weights)
    (when (bool_is_None (any key_truthy edge_weights))
       (raise (ValueError
          "'graph' cannot contain NA edge weights, all must have weights.")) ;;
     when (bool_lt (any key_truthy edge_weights) 0)
       (raise (Warning "'graph' should not contain negative edge weights."))).

Definition _validate_graph : M pyobj unit :=
  graph <- read (fun o => o) ;;
  when (obj_in graph [ObjNone; ObjStr "NA"; ObjStr "Nan"])
    (raise (ValueError "'graph' missing")) ;;
  match graph with
  | ObjGraph g => graph_checks g
  | _ => raise (ValueError "'graph' must be an NetworkX graph object")
  end.

(** *** [_validate_K] *)

(** Lines 112-119: the body of the loop over the cells. *)
Definition kernel_check_cell (cell : value * label * label) : M pyobj unit :=
  let '(score, col_label, row_label) := cell in
  when (negb (isinstance_float score) && negb (isinstance_int score))
    (raise (ValueError "'k' must be a numeric matrix, but it is not numeric.")) ;;
  when (value_in score [VStr "Nan"; VNone])
    (raise (ValueError "Scores input cannot contain NA. But background .")) ;;
  when (label_in col_label [Some "Nan"; None]
        || label_in row_label [Some "Nan"; None])
    (raise (ValueError "'k' dimnames cannot be NA.")).

(** Lines 92-125, once [k] is known to be a [Matrix]. *)
Definition kernel_checks (k : Matrix) : M pyobj unit :=
  when (negb (str_truthy "float") && str_contains "int" (dtype_str (dtype (mat k))))
    (raise (ValueError "'k' must be a numeric matrix, but it is not numeric.")) ;;
  let n_rows := fst (shape (mat k)) in
  let n_cols := snd (shape (mat k)) in
  when (negb (n_rows =? n_cols)%nat)
    (raise (ValueError
       ("'k' must be a square matrix, but it has " ++ str_of_nat n_rows
          ++ " rows and " ++ str_of_nat n_cols ++ " columns."))) ;;
  when (labels_eqb (cols_labels k) [])
    (raise (ValueError "'k' kernel must have row names.")) ;;
  when (labels_eqb (rows_labels k) [])
    (raise (ValueError "'k' kernel must have column names.")) ;;
  when (negb (labels_eqb (rows_labels k) (cols_labels k)))
    (raise (ValueError "'k' rownames and colnames must coincide.")) ;;
  for_each (iter k) kernel_check_cell ;;
  when (negb (unique_len (label_eq_dec) (rows_labels k)
              =? length (rows_labels k))%nat)
    (raise (ValueError "'k' cannot contain duplicated row names.")) ;;
  when (negb (unique_len (label_eq_dec) (cols_labels k)
              =? length (cols_labels k))%nat)
    (raise (ValueError "'k' cannot contain duplicated column names.")).

Definition _validate_K : M pyobj unit :=
  k <- read (fun o => o) ;;
  match k with
  | ObjMatrix m => kernel_checks m
  | _ => raise (ValueError "'k' must be a matrix")
  end.

(** ** Stages and conditions named by the properties below *)

(** The checks of [_validate_scores] that precede the standard deviation:
    labels, element type, cells (lines 21-45). *)
Definition scores_checks_before_std : M Matrix unit :=
  scores_check_labels ;;
  scores_check_dtype ;;
  scores_check_elements.

(** The label and element-type checks alone (lines 21-29). *)
Definition scores_checks_before_cells : M Matrix unit :=
  scores_check_labels ;;
  scores_check_dtype.

(** A number: an instance of [float] or of [int]. *)
Definition numeric (v : value) : bool :=
  isinstance_float v || isinstance_int v.

(** A label that is neither [None] nor the string ['Nan']. *)
Definition present (l : label) : bool :=
  negb (label_in l [Some "Nan"; None]).

(** The triples that the loop body of lines 33-45 lets through. *)
Definition cell_accepted (cell : value * label * label) : bool :=
  let '(score, col_label, row_label) := cell in
  numeric score && present col_label && present row_label.

(** A cell that NumPy reads as a finite binary64 number. *)
Definition finite_number (v : value) : bool :=
  match as_float v with
  | Some f => is_finite f && valid_binary prec emax f
  | None => false
  end.

(** What the loop body of lines 33-45 raises on a triple it rejects. *)
Definition scores_cell_failure (cell : value * label * label) : exn :=
  let '(score, col_label, row_label) := cell in
  ValueError
    (if is_None score then "Scores input cannot contain None."
     else if negb (numeric score) then
       "The scores in background are not numeric."
     else if label_in col_label [Some "Nan"; None] then
       "The scores in background must have row names according to the scored nodes."
     else
       "The scores in background must have col names to differentiate score sets.").

(** The failures that [_validate_scores] can end with on the matrix [m]. *)
Definition scores_failure (m : Matrix) (e : exn) : Prop :=
  e = ValueError
        "Scores must be a named list but supplied list contains no names." \/
  (exists cell, In cell (iter m) /\ cell_accepted cell = false /\
                e = scores_cell_failure cell) \/
  (std_axis0 (mat m) = inl e) \/
  (exists col_label,
     In col_label (cols_labels m) /\
     e = ValueError ("Standard deviation in background is 0 in column:"
                       ++ str_of_label col_label)).

(** What the loop body of lines 112-119 raises on a triple it rejects. *)
Definition kernel_cell_failure (cell : value * label * label) : exn :=
  let '(score, col_label, row_label) := cell in
  ValueError
    (if negb (numeric score) then
       "'k' must be a numeric matrix, but it is not numeric."
     else "'k' dimnames cannot be NA.").

(** The failures that [_validate_K] can end with on the matrix [k]. *)
Definition kernel_failure (k : Matrix) (e : exn) : Prop :=
  e = ValueError
        ("'k' must be a square matrix, but it has " ++ str_of_nat (n_rows (mat k))
           ++ " rows and " ++ str_of_nat (n_cols (mat k)) ++ " columns.") \/
  e = ValueError "'k' kernel must have row names." \/
  e = ValueError "'k' kernel must have column names." \/
  e = ValueError "'k' rownames and colnames must coincide." \/
  (exists cell, In cell (iter k) /\ cell_accepted cell = false /\
                e = kernel_cell_failure cell) \/
  e = ValueError "'k' cannot contain duplicated row names.".

(** The standard deviations that the loop of lines 49-53 visits are not 0. *)
Definition no_zero_sd (sds : list float) (cols : list label) : Prop :=
  Forall (fun p => feqb (fst p) fzero = false) (combine sds cols).

(** What the loop body of lines 112-119 looks at in a triple: whether the
    value is a number, and the two labels. *)
Definition cell_pattern (cell : value * label * label) : bool * label * label :=
  let '(score, col_label, row_label) := cell in
  (numeric score, col_label, row_label).

(** ** Sample inputs *)

Definition f_1 : float := Eval vm_compute in float_of_Z 1.
Definition f_2 : float := Eval vm_compute in float_of_Z 2.
Definition f_3 : float := Eval vm_compute in float_of_Z 3.
Definition f_5 : float := Eval vm_compute in float_of_Z 5.
Definition f_minus_1 : float := Eval vm_compute in float_of_Z (-1).

Definition matrix_of (d : dtype_kind) (rows : list (list value))
    (rl cl : list string) : Matrix :=
  {| mat := {| dtype := d;
               shape := (length rows, length cl);
               data := rows |};
     rows_labels := map Some rl;
     cols_labels := map Some cl |}.

(** Rows A, B, C; columns exp1 = [1.0, 1.0, 1.0] and exp2 = [1.0, 2.0, 5.0]. *)
Definition scores_exp1_constant : Matrix :=
  matrix_of Floating
    [[VFloat f_1; VFloat f_1]; [VFloat f_1; VFloat f_2]; [VFloat f_1; VFloat f_5]]
    ["A"; "B"; "C"] ["exp1"; "exp2"].


(** The binary64 number nearest to 0.1. *)
Definition f_tenth : float := S754_finite false 7205759403792794 (-56).

(** Rows A, B, C; columns exp1 = [0.1, 0.1, 0.1] and exp2 = [1.0, 2.0, 5.0]. *)
Definition scores_exp1_tenths : Matrix :=
  matrix_of Floating
    [[VFloat f_tenth; VFloat f_1]; [VFloat f_tenth; VFloat f_2];
     [VFloat f_tenth; VFloat f_5]]
    ["A"; "B"; "C"] ["exp1"; "exp2"].

(** Rows A, B; one column exp1 = [nan, 1.0]. *)
Definition scores_with_nan : Matrix :=
  matrix_of Floating [[VFloat fnan]; [VFloat f_1]] ["A"; "B"] ["exp1"].

(** One row A; one column exp1 = [nan]. *)
Definition scores_single_nan : Matrix :=
  matrix_of Floating [[VFloat fnan]] ["A"] ["exp1"].

(** One row A; one column exp1 = [inf]. *)
Definition scores_single_inf : Matrix :=
  matrix_of Floating [[VFloat finf]] ["A"] ["exp1"].

(** An array of Python objects: rows A, B; one column exp1 = [None, 1.0]. *)
Definition scores_of_objects : Matrix :=
  matrix_of Other [[VNone]; [VFloat f_1]] ["A"; "B"] ["exp1"].

(** An array of Python objects that all are floats, 2 by 2, labels A, B. *)
Definition kernel_of_objects : Matrix :=
  matrix_of Other [[VFloat f_1; VFloat f_2]; [VFloat f_2; VFloat f_1]]
    ["A"; "B"] ["A"; "B"].

(** An array of strings, 1 by 2. *)
Definition kernel_of_strings : Matrix :=
  matrix_of Other [[VStr "x"; VStr "y"]] ["A"] ["A"; "B"].

(** A 3 by 4 array of floats. *)
Definition kernel_3x4 : Matrix :=
  matrix_of Floating
    [[VFloat f_1; VFloat f_2; VFloat f_3; VFloat f_5];
     [VFloat f_2; VFloat f_1; VFloat f_3; VFloat f_5];
     [VFloat f_3; VFloat f_3; VFloat f_1; VFloat f_5]]
    ["A"; "B"; "C"] ["A"; "B"; "C"; "D"].

(** A 3 by 3 array of floats with rows A, B, C and columns A, C, B. *)
Definition kernel_ACB : Matrix :=
  matrix_of Floating
    [[VFloat f_1; VFloat f_2; VFloat f_3];
     [VFloat f_2; VFloat f_1; VFloat f_3];
     [VFloat f_3; VFloat f_3; VFloat f_1]]
    ["A"; "B"; "C"] ["A"; "C"; "B"].

Definition node_A : node := {| node_id := 0; name := "A" |}.
Definition node_B : node := {| node_id := 1; name := "B" |}.
Definition node_C : node := {| node_id := 2; name := "C" |}.

(** A directed graph A -> B. *)
Definition digraph_AB : Graph :=
  {| directed := true;
     nodes := [node_A; node_B];
     edges := [{| source := 0; target := 1; weight := None |}] |}.

(** An undirected graph A - B - C; only the edge A - B carries a weight. *)
Definition graph_partly_weighted : Graph :=
  {| directed := false;
     nodes := [node_A; node_B; node_C];
     edges := [{| source := 0; target := 1; weight := Some (VFloat f_1) |};
               {| source := 1; target := 2; weight := None |}] |}.

(** An undirected graph A - B - C; both edges carry a weight, one negative. *)
Definition graph_negative_weight : Graph :=
  {| directed := false;
     nodes := [node_A; node_B; node_C];
     edges := [{| source := 0; target := 1; weight := Some (VFloat f_minus_1) |};
               {| source := 1; target := 2; weight := Some (VFloat f_2) |}] |}.

(** One row A; columns exp1 = [5.0] and exp2 = [-1.0]. *)
Definition scores_single_row : Matrix :=
  matrix_of Floating [[VFloat f_5; VFloat f_minus_1]] ["A"] ["exp1"; "exp2"].

(** A 3 by 3 array of floats with rows and columns A, B, C. *)
Definition kernel_ABC : Matrix :=
  matrix_of Floating
    [[VFloat f_1; VFloat f_2; VFloat f_3];
     [VFloat f_2; VFloat f_1; VFloat f_3];
     [VFloat f_3; VFloat f_3; VFloat f_1]]
    ["A"; "B"; "C"] ["A"; "B"; "C"].

(** A 2 by 1 array of floats with a column label and no row labels. *)
Definition scores_without_row_labels : Matrix :=
  matrix_of Floating [[VFloat f_1]; [VFloat f_2]] [] ["exp1"].

(** An undirected graph of two nodes that are both named X. *)
Definition graph_two_X : Graph :=
  {| directed := false;
     nodes := [{| node_id := 0; name := "X" |}; {| node_id := 1; name := "X" |}];
     edges := [{| source := 0; target := 1; weight := None |}] |}.

(** An array of Python objects: rows A, B; one column exp1 = [1.0, None]. *)
Definition scores_with_None : Matrix :=
  matrix_of Other [[VFloat f_1]; [VNone]] ["A"; "B"] ["exp1"].

(** A 2 by 2 array of floats whose rows and columns are all labelled A. *)
Definition kernel_AA : Matrix :=
  matrix_of Floating [[VFloat f_1; VFloat f_2]; [VFloat f_2; VFloat f_1]]
    ["A"; "A"] ["A"; "A"].

(** A 2 by 2 array of floats with rows A, B and columns exp1, [None]. *)
Definition scores_missing_col_label : Matrix :=
  {| mat := {| dtype := Floating; shape := (2, 2);
               data := [[VFloat f_1; VFloat f_2]; [VFloat f_3; VFloat f_5]] |};
     rows_labels := [Some "A"; Some "B"];
     cols_labels := [Some "exp1"; None] |}.

(** A 2 by 2 array of objects with the string ['NA'] off the diagonal. *)
Definition kernel_with_string : Matrix :=
  matrix_of Other [[VFloat f_1; VStr "NA"]; [VStr "NA"; VFloat f_1]]
    ["A"; "B"] ["A"; "B"].

(** Minus infinity. *)
Definition f_inf_neg : float := S754_infinity true.

(** A 3 by 3 array of objects: numbers, not symmetric, with NaN and -inf. *)
Definition kernel_not_symmetric : Matrix :=
  matrix_of Other
    [[VFloat fnan; VInt 7; VFloat f_3];
     [VFloat f_inf_neg; VFloat f_1; VInt 0];
     [VFloat f_5; VFloat f_minus_1; VFloat f_1]]
    ["A"; "B"; "C"] ["A"; "B"; "C"].

(** ** Reasoning about the monad *)

Section MonadFacts.
Context {S : Type}.

Lemma bind_returned {A B : Type} (c : M S A) (k : A -> M S B) (s s' : S) (a : A) :
  c s = (Returned a, s') -> bind c k s = k a s'.
Proof. intros H. unfold bind. now rewrite H. Qed.

Lemma bind_raised {A B : Type} (c : M S A) (k : A -> M S B) (s s' : S) (e : exn) :
  c s = (Raised e, s') -> bind c k s = (Raised e, s').
Proof. intros H. unfold bind. now rewrite H. Qed.

Lemma when_false (body : M S unit) (s : S) : when false body s = (Returned tt, s).
Proof. reflexivity. Qed.

Lemma when_true (body : M S unit) (s : S) : when true body s = body s.
Proof. reflexivity. Qed.

(** A loop whose body returns on every element returns. *)
Lemma for_each_returns {A : Type} (xs : list A) (body : A -> M S unit) (s : S) :
  (forall x, In x xs -> body x s = (Returned tt, s)) ->
  for_each xs body s = (Returned tt, s).
Proof.
  induction xs as [|x xs IH]; intros H; simpl.
  - reflexivity.
  - rewrite (bind_returned _ _ s s tt) by (apply H; now left).
    apply IH. intros y Hy. apply H. now right.
Qed.

(** A loop raises what its body raises on the first element it rejects. *)
Lemma for_each_raises {A : Type} (pre post : list A) (x : A)
    (body : A -> M S unit) (s : S) (e : exn) :
  (forall y, In y pre -> body y s = (Returned tt, s)) ->
  body x s = (Raised e, s) ->
  for_each (pre ++ x :: post) body s = (Raised e, s).
Proof.
  induction pre as [|y pre IH]; intros Hpre Hx; simpl.
  - now apply bind_raised.
  - rewrite (bind_returned _ _ s s tt) by (apply Hpre; now left).
    apply IH; [|assumption]. intros z Hz. apply Hpre. now right.
Qed.

(** *** Computations that leave the store as it was *)

Lemma read_only_ret {A : Type} (a : A) : read_only (@ret S A a).
Proof. intros s. reflexivity. Qed.

Lemma read_only_raise {A : Type} (e : exn) : read_only (@raise S A e).
Proof. intros s. reflexivity. Qed.

Lemma read_only_read {A : Type} (f : S -> A) : read_only (read f).
Proof. intros s. reflexivity. Qed.

Lemma read_only_call {A : Type} (r : exn + A) : read_only (@call S A r).
Proof. destruct r; intros s; reflexivity. Qed.

Lemma read_only_bind {A B : Type} (c : M S A) (k : A -> M S B) :
  read_only c -> (forall a, read_only (k a)) -> read_only (bind c k).
Proof.
  intros Hc Hk s. unfold final_store, bind.
  specialize (Hc s). unfold final_store in Hc.
  destruct (c s) as [[a|e] s']; simpl in *; subst s'.
  - apply Hk.
  - reflexivity.
Qed.

Lemma read_only_when (b : bool) (body : M S unit) :
  read_only body -> read_only (when b body).
Proof. destruct b; simpl; [tauto | intros _; apply read_only_ret]. Qed.

Lemma read_only_for_each {A : Type} (xs : list A) (body : A -> M S unit) :
  (forall x, read_only (body x)) -> read_only (for_each xs body).
Proof.
  intros H. induction xs as [|x xs IH]; simpl.
  - apply read_only_ret.
  - apply read_only_bind; [apply H | intros _; exact IH].
Qed.

Lemma read_only_if {A : Type} (b : bool) (c1 c2 : M S A) :
  read_only c1 -> read_only c2 -> read_only (if b then c1 else c2).
Proof. destruct b; tauto. Qed.

End MonadFacts.

(** An assignment is not read-only (on a store with two states). *)
Lemma assign_not_read_only : ~ read_only (assign true).
Proof. intros H. specialize (H false). discriminate H. Qed.

Create HintDb frame.
#[export] Hint Resolve read_only_ret read_only_raise read_only_read
  read_only_call read_only_when read_only_for_each read_only_if : frame.

Ltac frame :=
  repeat first
    [ apply read_only_bind; [|intros ?]
    | apply read_only_when
    | apply read_only_if
    | solve [auto with frame]
    | match goal with
      | |- read_only (let '(_, _) := ?p in _) => destruct p
      | |- read_only (match ?o with _ => _ end) => destruct o
      end ].

Lemma scores_check_cell_read_only cell : read_only (scores_check_cell cell).
Proof. destruct cell as [[score col_label] row_label]. unfold scores_check_cell. frame. Qed.

Lemma scores_check_sd_read_only cell : read_only (scores_check_sd cell).
Proof. destruct cell as [[sd col_label] row_label]. unfold scores_check_sd. frame. Qed.

Lemma kernel_check_cell_read_only cell : read_only (kernel_check_cell cell).
Proof. destruct cell as [[sd col_label] row_label]. unfold kernel_check_cell. frame. Qed.

#[export] Hint Resolve scores_check_cell_read_only scores_check_sd_read_only
  kernel_check_cell_read_only : frame.


Lemma graph_checks_read_only g : read_only (graph_checks g).
Proof. unfold graph_checks. frame. Qed.

Lemma kernel_checks_read_only k : read_only (kernel_checks k).
Proof. unfold kernel_checks. frame. Qed.

#[export] Hint Resolve graph_checks_read_only kernel_checks_read_only : frame.




(** ** Facts about the Python operations *)

Lemma label_eqb_eq (a b : label) : label_eqb a b = true <-> a = b.
Proof.
  destruct a as [s|], b as [t|]; simpl; try (split; congruence).
  rewrite String.eqb_eq. split; congruence.
Qed.

Lemma labels_eqb_eq (a b : list label) : labels_eqb a b = true <-> a = b.
Proof.
  revert b. induction a as [|x a IH]; intros [|y b]; simpl;
    try (split; congruence).
  rewrite andb_true_iff, label_eqb_eq, IH. split.
  - intros [-> ->]. reflexivity.
  - intros H. injection H as -> ->. now split.
Qed.

Lemma labels_eqb_nil (a : list label) : labels_eqb a [] = negb (list_truthy a).
Proof. destruct a; reflexivity. Qed.

Lemma append_assoc (a b c : string) : ((a ++ b) ++ c = a ++ (b ++ c))%string.
Proof. induction a as [|x a IH]; simpl; [reflexivity | now rewrite IH]. Qed.

Lemma prefix_app (sub post : string) : String.prefix sub (sub ++ post)%string = true.
Proof.
  induction sub as [|c sub IH]; simpl.
  - destruct post; reflexivity.
  - destruct (ascii_dec c c); [exact IH | congruence].
Qed.

(** [sub in pre + sub + post]. *)
Lemma str_contains_app (pre sub post : string) :
  str_contains sub (pre ++ sub ++ post)%string = true.
Proof.
  induction pre as [|c pre IH]; simpl.
  - pose proof (prefix_app sub post) as P.
    destruct (sub ++ post)%string; cbn [str_contains]; rewrite P; reflexivity.
  - cbn [str_contains]. rewrite IH. apply orb_true_r.
Qed.

(** ** The kernel validator *)

Lemma kernel_checks_not_square (k : Matrix) (s : pyobj) :
  n_rows (mat k) <> n_cols (mat k) ->
  kernel_checks k s =
    (Raised (ValueError
       ("'k' must be a square matrix, but it has " ++ str_of_nat (n_rows (mat k))
          ++ " rows and " ++ str_of_nat (n_cols (mat k)) ++ " columns.")), s).
Proof.
  intros H. unfold kernel_checks, n_rows, n_cols in *.
  apply Nat.eqb_neq in H.
  unfold bind at 1. simpl (when _ _ s).
  unfold bind at 1. rewrite H. reflexivity.
Qed.

(** C6. A kernel matrix whose row count differs from its column count is
    rejected, and the message of the failure contains the decimal text of the
    row count and of the column count. *)
Theorem validate_K_rejects_non_square (k : Matrix) :
  n_rows (mat k) <> n_cols (mat k) ->
  exists msg,
    outcome _validate_K (ObjMatrix k) = Raised (ValueError msg) /\
    msg = ("'k' must be a square matrix, but it has "
             ++ str_of_nat (n_rows (mat k)) ++ " rows and "
             ++ str_of_nat (n_cols (mat k)) ++ " columns.")%string /\
    str_contains (str_of_nat (n_rows (mat k))) msg = true /\
    str_contains (str_of_nat (n_cols (mat k))) msg = true.
Proof.
  intros H. eexists. split; [|split; [reflexivity|split]].
  - unfold outcome, _validate_K, bind, read. simpl.
    now rewrite kernel_checks_not_square.
  - apply str_contains_app.
  - rewrite <- (append_assoc (str_of_nat (n_rows (mat k))) " rows and ").
    rewrite <- append_assoc.
    apply str_contains_app.
Qed.

Lemma labels_eqb_neq (a b : list label) : labels_eqb a b = false <-> a <> b.
Proof.
  rewrite <- labels_eqb_eq. destruct (labels_eqb a b); split; congruence.
Qed.

Lemma kernel_checks_labels_differ (k : Matrix) (s : pyobj) :
  n_rows (mat k) = n_cols (mat k) ->
  rows_labels k <> [] -> cols_labels k <> [] ->
  rows_labels k <> cols_labels k ->
  kernel_checks k s =
    (Raised (ValueError "'k' rownames and colnames must coincide."), s).
Proof.
  intros Hsq Hr Hc Hd. unfold kernel_checks, n_rows, n_cols in *.
  apply Nat.eqb_eq in Hsq.
  apply labels_eqb_neq in Hr, Hc, Hd.
  unfold bind. simpl (when (_ && _) _ s).
  rewrite Hsq, Hc, Hr, Hd. reflexivity.
Qed.

(** C7. A kernel matrix whose row and column label sequences are both
    non-empty and differ (in an entry or in the order of the entries) is
    rejected; when the matrix is square the failure is the one about row and
    column names. *)
Theorem validate_K_rejects_label_mismatch (k : Matrix) :
  rows_labels k <> [] -> cols_labels k <> [] ->
  rows_labels k <> cols_labels k ->
  exists msg,
    outcome _validate_K (ObjMatrix k) = Raised (ValueError msg) /\
    (n_rows (mat k) = n_cols (mat k) ->
     msg = "'k' rownames and colnames must coincide.").
Proof.
  intros Hr Hc Hd.
  destruct (Nat.eq_dec (n_rows (mat k)) (n_cols (mat k))) as [Hsq|Hsq].
  - eexists. split; [|reflexivity].
    unfold outcome, _validate_K, bind, read. simpl.
    now rewrite kernel_checks_labels_differ.
  - eexists. split; [|intros E; contradiction].
    unfold outcome, _validate_K, bind, read. simpl.
    now rewrite kernel_checks_not_square.
Qed.

(** ** The graph validator *)

Lemma unique_len_le {A : Type} (dec : forall x y : A, {x = y} + {x <> y})
    (xs : list A) :
  unique_len dec xs <= length xs.
Proof.
  unfold unique_len. induction xs as [|x xs IH]; simpl; [lia|].
  destruct (in_dec dec x xs); simpl; lia.
Qed.

(** [len(np.unique(xs)) == len(xs)] exactly when [xs] has no repetition. *)
Lemma unique_len_NoDup {A : Type} (dec : forall x y : A, {x = y} + {x <> y})
    (xs : list A) :
  unique_len dec xs = length xs <-> NoDup xs.
Proof.
  split; intros H.
  - induction xs as [|x xs IH]; [constructor|].
    pose proof (unique_len_le dec xs) as Hle.
    unfold unique_len in *. simpl in H.
    destruct (in_dec dec x xs) as [Hin|Hin]; simpl in H.
    + lia.
    + injection H as H. constructor; [assumption | now apply IH].
  - unfold unique_len. now rewrite nodup_fixed_point.
Qed.

Lemma graph_names (g : Graph) : get_label_list_graph g "name" = map name (nodes g).
Proof. reflexivity. Qed.

(** A directed graph with unique names: the check of line 75 raises. *)
Lemma graph_checks_directed (g : Graph) (s : pyobj) :
  NoDup (map name (nodes g)) -> is_directed g = true ->
  graph_checks g s =
    (Raised (Warning "graph' should be an undirected NetworkX graph object."), s).
Proof.
  intros Hnd Hdir. unfold graph_checks.
  rewrite graph_names.
  apply (unique_len_NoDup string_dec) in Hnd. apply Nat.eqb_eq in Hnd.
  unfold bind. simpl (when (list_in_consts _ _) _ s).
  simpl (when (bool_is_None _) _ s). cbv iota beta.
  rewrite Hnd, Hdir. reflexivity.
Qed.


(** C1 (as amended). A directed graph that passes the fatal checks (it is a
    graph object and its node names are unique) makes the validator raise an
    exception of type [Warning], not [ValueError], and the validation stops
    there. *)
Theorem validate_graph_directed_raises_Warning (g : Graph) :
  NoDup (map name (nodes g)) -> is_directed g = true ->
  outcome _validate_graph (ObjGraph g) =
    Raised (Warning "graph' should be an undirected NetworkX graph object.").
Proof.
  intros Hnd Hdir. unfold outcome, _validate_graph, bind, read. simpl.
  now rewrite graph_checks_directed.
Qed.

Lemma validate_graph_directed_raises_Warning_witness :
  NoDup (map name (nodes digraph_AB)) /\
  is_directed digraph_AB = true /\
  outcome _validate_graph (ObjGraph digraph_AB) =
    Raised (Warning "graph' should be an undirected NetworkX graph object.").
Proof.
  assert (NoDup (map name (nodes digraph_AB))) as Hnd.
  { apply (unique_len_NoDup string_dec). reflexivity. }
  split; [exact Hnd | split; [reflexivity|]].
  apply (validate_graph_directed_raises_Warning digraph_AB Hnd). reflexivity.
Defined.

(** C1 (as stated) fails: the directed graph A -> B passes the fatal checks,
    and the validator does not return; it raises. *)
Lemma directed_graph_does_not_return :
  NoDup (map name (nodes digraph_AB)) /\
  is_directed digraph_AB = true /\
  ~ returns_normally _validate_graph (ObjGraph digraph_AB).
Proof.
  split; [|split].
  - apply (unique_len_NoDup string_dec). reflexivity.
  - reflexivity.
  - intros [a H]. vm_compute in H. discriminate H.
Qed.

(** C4. On an undirected graph with unique node names of which one edge
    carries a weight and another does not, the validator returns without
    raising; so it does on one whose edges all carry weights, one of them
    negative, and nothing is reported. *)
Theorem validate_graph_ignores_edge_weights :
  (list_truthy (get_edge_attributes graph_partly_weighted "weight") = true /\
   Exists (fun e => weight e = None) (edges graph_partly_weighted) /\
   _validate_graph (ObjGraph graph_partly_weighted)
     = (Returned tt, ObjGraph graph_partly_weighted)) /\
  (Forall (fun e => weight e <> None) (edges graph_negative_weight) /\
   Exists (fun e => exists w, weight e = Some (VFloat w) /\ fltb w fzero = true)
     (edges graph_negative_weight) /\
   _validate_graph (ObjGraph graph_negative_weight)
     = (Returned tt, ObjGraph graph_negative_weight)).
Proof.
  split; (split; [|split]).
  - reflexivity.
  - right. left. reflexivity.
  - reflexivity.
  - repeat constructor; discriminate.
  - left. exists f_minus_1. split; reflexivity.
  - reflexivity.
Qed.

Lemma validate_K_rejects_non_square_witness :
  n_rows (mat kernel_3x4) <> n_cols (mat kernel_3x4) /\
  exists msg,
    outcome _validate_K (ObjMatrix kernel_3x4) = Raised (ValueError msg) /\
    msg = "'k' must be a square matrix, but it has 3 rows and 4 columns." /\
    str_contains "3" msg = true /\
    str_contains "4" msg = true.
Proof.
  assert (n_rows (mat kernel_3x4) <> n_cols (mat kernel_3x4)) as H
    by (vm_compute; lia).
  split; [exact H|].
  exact (validate_K_rejects_non_square kernel_3x4 H).
Defined.

Lemma validate_K_rejects_label_mismatch_witness :
  rows_labels kernel_ACB = [Some "A"; Some "B"; Some "C"] /\
  cols_labels kernel_ACB = [Some "A"; Some "C"; Some "B"] /\
  outcome _validate_K (ObjMatrix kernel_ACB)
    = Raised (ValueError "'k' rownames and colnames must coincide.").
Proof.
  split; [reflexivity | split; [reflexivity|]].
  destruct (validate_K_rejects_label_mismatch kernel_ACB) as [msg [H E]];
    try (vm_compute; discriminate).
  rewrite H, E; reflexivity.
Defined.

(** ** The scores validator *)

(** A computation is determined by its outcome when it is read-only. *)
Lemma read_only_run {S A : Type} (c : M S A) (s : S) (r : result A) :
  read_only c -> outcome c s = r -> c s = (r, s).
Proof.
  intros Hro Hout. specialize (Hro s). unfold outcome, final_store in *.
  destruct (c s) as [r' s']. simpl in *. congruence.
Qed.

Lemma scores_checks_before_std_read_only : read_only scores_checks_before_std.
Proof.
  unfold scores_checks_before_std, scores_check_labels, scores_check_dtype,
    scores_check_elements.
  frame.
Qed.

(** The validator is the earlier checks followed by the check of the standard
    deviations. *)
Lemma validate_scores_stages (m : Matrix) :
  _validate_scores m = (scores_checks_before_std ;; scores_check_std) m.
Proof.
  unfold _validate_scores, scores_checks_before_std, bind.
  destruct (scores_check_labels m) as [[[]|e] s1]; [|reflexivity].
  destruct (scores_check_dtype s1) as [[[]|e] s2]; [|reflexivity].
  destruct (scores_check_elements s2) as [[[]|e] s3]; reflexivity.
Qed.

Lemma validate_scores_after_checks (m : Matrix) :
  outcome scores_checks_before_std m = Returned tt ->
  _validate_scores m = scores_check_std m.
Proof.
  intros H. rewrite validate_scores_stages.
  apply bind_returned with (a := tt).
  now apply read_only_run; [apply scores_checks_before_std_read_only|].
Qed.

Lemma scores_check_labels_run (m : Matrix) :
  cols_labels m <> [] -> rows_labels m <> [] ->
  scores_check_labels m = (Returned tt, m).
Proof.
  intros Hc Hr. unfold scores_check_labels, bind, read.
  assert (list_truthy (cols_labels m) = true) as Tc
    by (destruct (cols_labels m); [congruence | reflexivity]).
  assert (list_truthy (rows_labels m) = true) as Tr
    by (destruct (rows_labels m); [congruence | reflexivity]).
  rewrite Tc. simpl. rewrite Tr. reflexivity.
Qed.

(** The test of line 28 is [False] for every array: [not 'float'] is. *)
Lemma scores_check_dtype_run (m : Matrix) :
  scores_check_dtype m = (Returned tt, m).
Proof. reflexivity. Qed.

Lemma kernel_dtype_test_false (k : Matrix) :
  negb (str_truthy "float") && str_contains "int" (dtype_str (dtype (mat k)))
  = false.
Proof. reflexivity. Qed.

Lemma scores_check_cell_accepts cell (s : Matrix) :
  cell_accepted cell = true -> scores_check_cell cell s = (Returned tt, s).
Proof.
  destruct cell as [[score col_label] row_label].
  unfold cell_accepted, numeric, present, scores_check_cell.
  rewrite !andb_true_iff, !negb_true_iff. intros [[Hn Hc] Hr].
  unfold bind. rewrite Hc, Hr.
  destruct score; simpl in Hn; try discriminate; reflexivity.
Qed.

Lemma scores_check_cell_rejects cell (s : Matrix) :
  cell_accepted cell = false ->
  exists msg, scores_check_cell cell s = (Raised (ValueError msg), s).
Proof.
  destruct cell as [[score col_label] row_label].
  unfold cell_accepted, numeric, present, scores_check_cell, bind.
  generalize (label_in col_label [Some "Nan"; None])
             (label_in row_label [Some "Nan"; None]).
  intros bc br.
  destruct score, bc, br; simpl; intros H; try discriminate H;
    eexists; reflexivity.
Qed.


(** Where the cells of [iter m] come from. *)
Lemma in_iter (m : Matrix) (v : value) (c r : label) :
  In (v, c, r) (iter m) ->
  (exists row, In row (data (mat m)) /\ In v row) /\
  In c (cols_labels m) /\ In r (rows_labels m).
Proof.
  unfold iter. rewrite in_flat_map. intros [[row rl] [Hrow Hin]].
  rewrite in_map_iff in Hin. destruct Hin as [[v' c'] [E Hvc]].
  injection E as -> -> ->.
  split; [exists row; split|split].
  - eapply in_combine_l; eauto.
  - eapply in_combine_l; eauto.
  - eapply in_combine_r; eauto.
  - eapply in_combine_r; eauto.
Qed.

Lemma iter_of_std (sds : list float) (cols : list label) :
  iter (of_std sds cols) =
  map (fun '(sd, col_label) => (VFloat sd, col_label, Some "sd"))
      (combine sds cols).
Proof.
  unfold iter, of_std. simpl. rewrite app_nil_r.
  revert cols. induction sds as [|sd sds IH]; intros [|c cols]; simpl;
    try reflexivity.
  now rewrite IH.
Qed.


Lemma scores_check_sd_run (sd : float) (col_label row_label : label) (s : Matrix) :
  scores_check_sd (VFloat sd, col_label, row_label) s =
  (if feqb sd fzero
   then Raised (ValueError ("Standard deviation in background is 0 in column:"
                              ++ str_of_label col_label))
   else Returned tt, s).
Proof.
  unfold scores_check_sd, bind. simpl.
  destruct (feqb sd fzero); reflexivity.
Qed.

Lemma std_columns_length (a : ndarray) (js : list nat) (sds : list float) :
  std_columns a js = Some sds -> length sds = length js.
Proof.
  revert sds. induction js as [|j js IH]; intros sds; simpl.
  - intros E. injection E as <-. reflexivity.
  - destruct (as_floats (column a j)); [|discriminate].
    destruct (std_columns a js) as [sds'|]; [|discriminate].
    intros E. injection E as <-. simpl. f_equal. now apply IH.
Qed.

(** [np.std(a, axis=0)] has one entry per column. *)
Lemma std_axis0_length (a : ndarray) (sds : list float) :
  std_axis0 a = inr sds -> length sds = n_cols a.
Proof.
  unfold std_axis0. destruct (dtype a); try discriminate;
    destruct (std_columns a (seq 0 (n_cols a))) eqn:E; try discriminate;
    intros H; injection H as <-;
    apply std_columns_length in E; now rewrite length_seq in E.
Qed.

Lemma scores_check_std_run (m : Matrix) (sds : list float) :
  std_axis0 (mat m) = inr sds ->
  scores_check_std m =
  for_each
    (map (fun '(sd, col_label) => (VFloat sd, col_label, Some "sd"))
         (combine sds (cols_labels m)))
    scores_check_sd m.
Proof.
  intros H. unfold scores_check_std, bind, read. rewrite H. simpl.
  now rewrite iter_of_std.
Qed.

(** The loop of lines 49-53 stops at the first standard deviation that is
    zero, with the label of its column in the message. *)
Lemma sd_loop_first_zero (sds : list float) (cols : list label) (s : Matrix) :
  length sds <= length cols ->
  Exists (fun sd => feqb sd fzero = true) sds ->
  exists j sd col_label,
    nth_error sds j = Some sd /\ feqb sd fzero = true /\
    nth_error cols j = Some col_label /\
    (forall i sd', i < j -> nth_error sds i = Some sd' -> feqb sd' fzero = false) /\
    for_each
      (map (fun '(sd, col_label) => (VFloat sd, col_label, Some "sd"))
           (combine sds cols))
      scores_check_sd s
    = (Raised (ValueError ("Standard deviation in background is 0 in column:"
                             ++ str_of_label col_label)), s).
Proof.
  revert cols. induction sds as [|sd sds IH]; intros cols Hlen Hex.
  - inversion Hex.
  - destruct cols as [|c cols]; [simpl in Hlen; lia|].
    simpl in Hlen. destruct (feqb sd fzero) eqn:Hz.
    + exists 0, sd, c. repeat split; try assumption.
      * intros i sd' Hi. lia.
      * cbn [for_each map combine]. apply bind_raised.
        rewrite scores_check_sd_run, Hz. reflexivity.
    + assert (Exists (fun sd => feqb sd fzero = true) sds) as Hex'.
      { inversion Hex; subst; [congruence | assumption]. }
      destruct (IH cols ltac:(lia) Hex') as (j & sd' & c' & Hj & Hz' & Hc & Hmin & Hrun).
      exists (Datatypes.S j), sd', c'. repeat split; try assumption.
      * intros [|i] sd'' Hi Hn; simpl in Hn.
        -- injection Hn as <-. assumption.
        -- apply (Hmin i); [lia | assumption].
      * cbn [for_each map combine].
        rewrite (bind_returned _ _ s s tt); [exact Hrun|].
        rewrite scores_check_sd_run, Hz. reflexivity.
Qed.

(** C5. When the checks before the standard deviation pass and some column
    has a standard deviation equal to zero, the validator raises, and the
    message names the label of a column whose standard deviation is zero: the
    first such column. *)
Theorem validate_scores_rejects_zero_sd (m : Matrix) (sds : list float) :
  outcome scores_checks_before_std m = Returned tt ->
  length (cols_labels m) = n_cols (mat m) ->
  std_axis0 (mat m) = inr sds ->
  Exists (fun sd => feqb sd fzero = true) sds ->
  exists j sd col_label,
    nth_error sds j = Some sd /\ feqb sd fzero = true /\
    nth_error (cols_labels m) j = Some col_label /\
    (forall i sd', i < j -> nth_error sds i = Some sd' -> feqb sd' fzero = false) /\
    outcome _validate_scores m
    = Raised (ValueError ("Standard deviation in background is 0 in column:"
                            ++ str_of_label col_label)).
Proof.
  intros Hpass Hcols Hstd Hex.
  pose proof (std_axis0_length _ _ Hstd) as Hlen.
  destruct (sd_loop_first_zero sds (cols_labels m) m ltac:(lia) Hex)
    as (j & sd & c & Hj & Hz & Hc & Hmin & Hrun).
  exists j, sd, c. repeat split; try assumption.
  unfold outcome. rewrite (validate_scores_after_checks m Hpass).
  rewrite (scores_check_std_run m sds Hstd), Hrun. reflexivity.
Qed.

Lemma validate_scores_rejects_zero_sd_witness :
  exists sds,
    std_axis0 (mat scores_exp1_constant) = inr sds /\
    nth_error sds 0 = Some fzero /\
    outcome _validate_scores scores_exp1_constant
    = Raised (ValueError "Standard deviation in background is 0 in column:exp1").
Proof.
  eexists. split; [vm_compute; reflexivity|]. split; [reflexivity|].
  destruct (validate_scores_rejects_zero_sd scores_exp1_constant
              [fzero; S754_finite false 7654647460457118 (-52)])
    as (j & sd & c & Hj & Hz & Hc & Hmin & Hrun).
  - reflexivity.
  - reflexivity.
  - vm_compute. reflexivity.
  - left. reflexivity.
  - destruct j as [|j].
    + injection Hc as <-. exact Hrun.
    + specialize (Hmin 0 fzero ltac:(lia) eq_refl). discriminate Hmin.
Defined.

(** Equal values do not always have a standard deviation of zero: the mean
    of three times 0.1 is rounded away from 0.1, the standard deviation is
    2^-56, and the matrix is accepted. *)
Remark equal_values_with_nonzero_sd :
  valid_binary prec emax f_tenth = true /\
  std_column [f_tenth; f_tenth; f_tenth]
  = S754_finite false 4503599627370496 (-108) /\
  outcome _validate_scores scores_exp1_tenths = Returned tt.
Proof. repeat split; vm_compute; reflexivity. Qed.

(** ** Acceptance by the scores validator *)









(** ** Inputs on which the validators miss what they test for *)

(** C2. The scores matrix with rows A, B and the column exp1 = [nan, 1.0]
    passes the label and element-type checks and holds a floating NaN, yet
    the loop over the cells returns, the standard deviation is computed (it is
    NaN), and the validator returns without raising. *)
Theorem validate_scores_accepts_nan_cell :
  outcome scores_checks_before_cells scores_with_nan = Returned tt /\
  In (VFloat fnan, Some "exp1", Some "A") (iter scores_with_nan) /\
  outcome scores_checks_before_std scores_with_nan = Returned tt /\
  std_axis0 (mat scores_with_nan) = inr [fnan] /\
  outcome _validate_scores scores_with_nan = Returned tt.
Proof.
  split; [reflexivity|]. split; [left; reflexivity|].
  split; [reflexivity|]. split; vm_compute; reflexivity.
Qed.

(** C3. The element-type test never raises.  A kernel held in an array of
    Python objects is accepted when the objects are floats; a 1 by 2 array of
    strings is rejected for its shape, not for its element type; a scores
    matrix held in an array of objects is rejected by the loop over the cells,
    for a cell that is [None]. *)
Theorem dtype_check_never_raises :
  (forall scores : Matrix, scores_check_dtype scores = (Returned tt, scores)) /\
  (forall k : Matrix,
     negb (str_truthy "float") && str_contains "int" (dtype_str (dtype (mat k)))
     = false) /\
  (dtype (mat kernel_of_objects) = Other /\
   outcome _validate_K (ObjMatrix kernel_of_objects) = Returned tt) /\
  (dtype (mat kernel_of_strings) = Other /\
   outcome _validate_K (ObjMatrix kernel_of_strings)
   = Raised (ValueError
       "'k' must be a square matrix, but it has 1 rows and 2 columns.")) /\
  (dtype (mat scores_of_objects) = Other /\
   outcome _validate_scores scores_of_objects
   = Raised (ValueError "Scores input cannot contain None.")).
Proof.
  split; [exact scores_check_dtype_run|].
  split; [exact kernel_dtype_test_false|].
  repeat split; vm_compute; reflexivity.
Qed.

(** C10. The scores matrix with the single row A and the column exp1 = [nan]
    passes the label, element-type and cell checks; its standard deviation is
    NaN, which equals neither ['Nan'], [None] nor 0, and the validator returns
    without raising.  The same holds of the single cell [inf]. *)
Theorem validate_scores_accepts_single_row :
  (n_rows (mat scores_single_nan) = 1 /\
   outcome scores_checks_before_std scores_single_nan = Returned tt /\
   std_axis0 (mat scores_single_nan) = inr [fnan] /\
   outcome _validate_scores scores_single_nan = Returned tt) /\
  (n_rows (mat scores_single_inf) = 1 /\
   outcome scores_checks_before_std scores_single_inf = Returned tt /\
   std_axis0 (mat scores_single_inf) = inr [fnan] /\
   outcome _validate_scores scores_single_inf = Returned tt).
Proof. repeat split; vm_compute; reflexivity. Qed.

(** ** Binary64 facts behind the standard deviation of a single row *)

Ltac fexp_arith := unfold fexp, SpecFloat.emin, prec, emax in *; lia.

(** A valid finite float is normal (53 digits) or has the least exponent. *)
Lemma bounded_cases (m : positive) (e : Z) :
  bounded prec emax m e = true ->
  (e <=? 971)%Z = true /\
  (fexp prec emax (Z.pos (digits2_pos m) + e) - e = 0)%Z /\
  ((Z.pos (digits2_pos m) = 53 /\ -1074 < e)%Z \/
   (Z.pos (digits2_pos m) <= 53 /\ e = -1074)%Z).
Proof.
  unfold bounded, canonical_mantissa.
  rewrite andb_true_iff, Z.eqb_eq. intros [Hc He].
  split; [exact He | split; fexp_arith].
Qed.

Lemma div_eucl_mul (a b : Z) :
  (0 < b)%Z -> Z.div_eucl (a * b) b = (a, 0%Z).
Proof.
  intros Hb.
  pose proof (Z.div_mul a b ltac:(lia)) as Hq.
  pose proof (Z.mod_mul a b ltac:(lia)) as Hr.
  unfold Z.div, Z.modulo in *.
  destruct (Z.div_eucl (a * b) b) as [q r]. simpl in *. now subst.
Qed.

(** Rounding leaves the mantissa and exponent of a valid float as they are. *)
Lemma round_valid (s : bool) (m : positive) (e : Z) :
  bounded prec emax m e = true ->
  binary_round_aux prec emax s (Z.pos m) e loc_Exact = S754_finite s m e.
Proof.
  intros Hb. destruct (bounded_cases m e Hb) as (Hmax & Hshift & _).
  unfold binary_round_aux, shr_fexp.
  change (Zdigits2 (Z.pos m)) with (Z.pos (digits2_pos m)).
  rewrite Hshift.
  cbn [shr shr_record_of_loc shr_m loc_of_shr_record round_nearest_even].
  change (Zdigits2 (Z.pos m)) with (Z.pos (digits2_pos m)).
  rewrite Hshift. cbn [shr shr_m].
  change (emax - prec)%Z with 971%Z. now rewrite Hmax.
Qed.

(** Rounding a doubled mantissa with the exponent one lower shifts it back. *)
Lemma round_doubled (s : bool) (m : positive) (e : Z) :
  bounded prec emax m e = true ->
  Z.pos (digits2_pos m) = 53%Z -> (-1074 < e)%Z ->
  binary_round_aux prec emax s (Z.pos m~0) (e - 1) loc_Exact = S754_finite s m e.
Proof.
  intros Hb Hd He. destruct (bounded_cases m e Hb) as (Hmax & Hshift & _).
  unfold binary_round_aux, shr_fexp.
  change (Zdigits2 (Z.pos m~0)) with (Z.pos (Pos.succ (digits2_pos m))).
  rewrite Pos2Z.inj_succ, Hd.
  replace (fexp prec emax (Z.succ 53 + (e - 1)) - (e - 1))%Z with 1%Z
    by fexp_arith.
  cbn [shr shr_record_of_loc iter_pos shr_1 shr_m loc_of_shr_record
       round_nearest_even orb].
  replace (e - 1 + 1)%Z with e by lia.
  change (Zdigits2 (Z.pos m)) with (Z.pos (digits2_pos m)).
  rewrite Hshift. cbn [shr shr_m].
  change (emax - prec)%Z with 971%Z. now rewrite Hmax.
Qed.

(** Division by 1.0 is exact. *)
Lemma fdiv_one (s : bool) (m : positive) (e : Z) :
  bounded prec emax m e = true ->
  fdiv (S754_finite s m e) f_1 = S754_finite s m e.
Proof.
  intros Hb. destruct (bounded_cases m e Hb) as (_ & _ & Hcase).
  unfold fdiv, f_1, SFdiv, SFdiv_core_binary.
  change (Zdigits2 4503599627370496) with 53%Z.
  change (Zdigits2 (Z.pos m)) with (Z.pos (digits2_pos m)).
  change IntDef.Z.min with Z.min.
  change IntDef.Z.shiftl with Z.shiftl.
  change IntDef.Z.div_eucl with Z.div_eucl.
  rewrite xorb_false_r.
  destruct Hcase as [[Hd He] | [Hd He]].
  - replace (Z.min _ _) with (e - 1)%Z by fexp_arith.
    replace (e - -52 - (e - 1))%Z with 53%Z by lia.
    rewrite Z.shiftl_mul_pow2 by lia.
    replace (Z.pos m * 2 ^ 53)%Z with (Z.pos m~0 * 4503599627370496)%Z
      by (change (2 ^ 53)%Z with (2 * 4503599627370496)%Z; lia).
    rewrite div_eucl_mul by lia.
    change (new_location 4503599627370496 0) with loc_Exact.
    now apply round_doubled.
  - replace (Z.min _ _) with e by fexp_arith.
    replace (e - -52 - e)%Z with 52%Z by lia.
    rewrite Z.shiftl_mul_pow2 by lia.
    change (2 ^ 52)%Z with 4503599627370496%Z.
    rewrite div_eucl_mul by lia.
    change (new_location 4503599627370496 0) with loc_Exact.
    now apply round_valid.
Qed.

(** The difference of a finite float with itself is +0.0. *)
Lemma fsub_self (x : float) : is_finite x = true -> fsub x x = fzero.
Proof.
  destruct x as [s|s| |s m e]; simpl; try discriminate; intros _.
  - destruct s; reflexivity.
  - unfold fsub, SFsub. rewrite Z.sub_diag. reflexivity.
Qed.

(** Division by 1.0 is exact on zeros as well. *)
Lemma fdiv_one_finite (x : float) :
  is_finite x = true -> valid_binary prec emax x = true -> fdiv x f_1 = x.
Proof.
  destruct x as [s|s| |s m e]; simpl; try discriminate; intros _ Hv.
  - destruct s; reflexivity.
  - now apply fdiv_one.
Qed.

(** The standard deviation of a single finite value is zero. *)
Lemma std_column_single (x : float) :
  is_finite x = true -> valid_binary prec emax x = true ->
  std_column [x] = fzero.
Proof.
  intros Hf Hv. unfold std_column.
  change (float_of_Z (Z.of_nat (length [x]))) with f_1.
  cbn [fsum fold_left map].
  rewrite (fdiv_one_finite x Hf Hv), (fsub_self x Hf). reflexivity.
Qed.

Lemma std_columns_single_row (a : ndarray) (row : list value) (js : list nat) :
  data a = [row] ->
  Forall (fun v => finite_number v = true) row ->
  Forall (fun j => j < length row) js ->
  std_columns a js = Some (map (fun _ => fzero) js).
Proof.
  intros Hdata Hfin. induction 1 as [|j js Hj _ IH]; simpl; [reflexivity|].
  unfold column. rewrite Hdata. cbn [map as_floats].
  rewrite Forall_forall in Hfin.
  pose proof (Hfin _ (nth_In row VNone Hj)) as Hv. unfold finite_number in Hv.
  destruct (as_float (nth j row VNone)) as [f|]; [|discriminate].
  apply andb_true_iff in Hv. destruct Hv as [Hf Hv].
  fold (column a j). rewrite IH, (std_column_single f Hf Hv). reflexivity.
Qed.

Lemma std_axis0_single_row (a : ndarray) (row : list value) :
  data a = [row] -> length row = n_cols a ->
  dtype a = Floating \/ dtype a = Integer ->
  Forall (fun v => finite_number v = true) row ->
  std_axis0 a = inr (map (fun _ => fzero) (seq 0 (n_cols a))).
Proof.
  intros Hdata Hlen Hd Hfin. unfold std_axis0.
  rewrite (std_columns_single_row a row _ Hdata Hfin).
  - destruct Hd as [-> | ->]; reflexivity.
  - rewrite Forall_forall. intros j Hj. apply in_seq in Hj. lia.
Qed.

Lemma passing_checks_has_columns (m : Matrix) :
  outcome scores_checks_before_std m = Returned tt -> cols_labels m <> [].
Proof.
  intros H E. revert H.
  unfold outcome, scores_checks_before_std, scores_check_labels, bind, read.
  rewrite E. simpl. discriminate.
Qed.

(** X1. A scores matrix with a single row of finite numbers that passes the
    checks before the standard deviation is rejected: the standard deviation
    of its first column is zero, and the message names that column. *)
Theorem single_finite_row_rejected (m : Matrix) (row : list value) :
  data (mat m) = [row] ->
  length row = n_cols (mat m) ->
  length (cols_labels m) = n_cols (mat m) ->
  dtype (mat m) = Floating \/ dtype (mat m) = Integer ->
  Forall (fun v => finite_number v = true) row ->
  outcome scores_checks_before_std m = Returned tt ->
  exists col_label cols,
    cols_labels m = col_label :: cols /\
    outcome _validate_scores m
    = Raised (ValueError ("Standard deviation in background is 0 in column:"
                            ++ str_of_label col_label)).
Proof.
  intros Hdata Hrow Hcols Hd Hfin Hpass.
  pose proof (passing_checks_has_columns m Hpass) as Hne.
  pose proof (std_axis0_single_row (mat m) row Hdata Hrow Hd Hfin) as Hstd.
  destruct (cols_labels m) as [|c cols] eqn:Ec; [congruence|].
  exists c, cols. split; [reflexivity|].
  unfold outcome. rewrite (validate_scores_after_checks m Hpass).
  rewrite (scores_check_std_run m _ Hstd), Ec, <- Hcols.
  cbn [length seq map combine for_each].
  erewrite bind_raised; [reflexivity|].
  rewrite scores_check_sd_run. reflexivity.
Qed.

Lemma single_finite_row_rejected_witness :
  outcome scores_checks_before_std scores_single_row = Returned tt /\
  outcome _validate_scores scores_single_row
  = Raised (ValueError "Standard deviation in background is 0 in column:exp1").
Proof.
  assert (outcome scores_checks_before_std scores_single_row = Returned tt)
    as Hpass by reflexivity.
  split; [exact Hpass|].
  assert (Forall (fun v => finite_number v = true) [VFloat f_5; VFloat f_minus_1])
    as Hfin by (repeat constructor).
  destruct (single_finite_row_rejected scores_single_row
              [VFloat f_5; VFloat f_minus_1]
              eq_refl eq_refl eq_refl (or_introl eq_refl) Hfin Hpass)
    as (c & cols & Ec & Hrun).
  injection Ec as <- _. exact Hrun.
Defined.

(** ** Further properties of the validators *)

Lemma kernel_check_cell_accepts cell (s : pyobj) :
  cell_accepted cell = true -> kernel_check_cell cell s = (Returned tt, s).
Proof.
  destruct cell as [[score col_label] row_label].
  unfold cell_accepted, numeric, present, kernel_check_cell.
  rewrite !andb_true_iff, !negb_true_iff. intros [[Hn Hc] Hr].
  unfold bind. rewrite Hc, Hr.
  destruct score; simpl in Hn; try discriminate; reflexivity.
Qed.



(** X3. A scores matrix with an empty list of row labels or of column labels
    is rejected. *)
Theorem validate_scores_rejects_empty_labels (m : Matrix) :
  rows_labels m = [] \/ cols_labels m = [] ->
  outcome _validate_scores m
  = Raised (ValueError
      "Scores must be a named list but supplied list contains no names.").
Proof.
  intros H. unfold outcome, _validate_scores, scores_check_labels, bind, read.
  destruct (cols_labels m) as [|c cols] eqn:Ec; [reflexivity|].
  destruct H as [Er | E]; [|discriminate E].
  simpl. rewrite Er. reflexivity.
Qed.

Lemma validate_scores_rejects_empty_labels_witness :
  rows_labels scores_without_row_labels = [] /\
  outcome _validate_scores scores_without_row_labels
  = Raised (ValueError
      "Scores must be a named list but supplied list contains no names.").
Proof.
  split; [reflexivity|].
  apply (validate_scores_rejects_empty_labels scores_without_row_labels).
  left. reflexivity.
Defined.

(** X4. An absent graph is rejected, and so is a graph in which two nodes
    have the same name. *)
Theorem validate_graph_rejects_duplicate_names (g : Graph) :
  ~ NoDup (map name (nodes g)) ->
  outcome _validate_graph ObjNone = Raised (ValueError "'graph' missing") /\
  outcome _validate_graph (ObjGraph g)
  = Raised (ValueError
      "'graph' has non-unique names! Please check that the names are unique.").
Proof.
  intros Hdup. split; [reflexivity|].
  unfold outcome, _validate_graph, bind, read. cbn [fst snd].
  simpl (when (obj_in _ _) _ _). cbv iota beta.
  unfold graph_checks. rewrite graph_names.
  assert ((unique_len string_dec (map name (nodes g))
           =? length (map name (nodes g)))%nat = false) as Hneq.
  { apply Nat.eqb_neq. intros E. apply Hdup.
    now apply (unique_len_NoDup string_dec). }
  unfold bind. simpl (when (list_in_consts _ _) _ _).
  simpl (when (bool_is_None _) _ _). cbv iota beta.
  rewrite Hneq. reflexivity.
Qed.

Lemma validate_graph_rejects_duplicate_names_witness :
  map name (nodes graph_two_X) = ["X"; "X"] /\
  outcome _validate_graph (ObjGraph graph_two_X)
  = Raised (ValueError
      "'graph' has non-unique names! Please check that the names are unique.").
Proof.
  split; [reflexivity|].
  apply (validate_graph_rejects_duplicate_names graph_two_X).
  intros H. apply (unique_len_NoDup string_dec) in H. discriminate H.
Defined.

Lemma in_combine_some {A B : Type} (x : A) (l : list A) (l' : list B) :
  In x l -> length l <= length l' -> exists y, In (x, y) (combine l l').
Proof.
  revert l'. induction l as [|a l IH]; intros [|b l'] Hin Hlen;
    simpl in *; try contradiction; try lia.
  destruct Hin as [-> | Hin].
  - exists b. now left.
  - destruct (IH l' Hin ltac:(lia)) as [y Hy]. exists y. now right.
Qed.

(** Iteration reaches every stored cell of a matrix whose labels have the
    lengths of its dimensions. *)
Lemma iter_covers (m : Matrix) (row : list value) (v : value) :
  labelled m -> In row (data (mat m)) -> In v row ->
  exists c r, In (v, c, r) (iter m).
Proof.
  intros [[Hrows Hrect] [Hrl Hcl]] Hrow Hv.
  destruct (in_combine_some row _ (rows_labels m) Hrow ltac:(lia)) as [r Hr].
  rewrite Forall_forall in Hrect.
  destruct (in_combine_some v row (cols_labels m) Hv) as [c Hc].
  { rewrite (Hrect row Hrow). lia. }
  exists c, r. unfold iter. rewrite in_flat_map.
  exists (row, r). split; [assumption|].
  rewrite in_map_iff. exists (v, c). now split.
Qed.

Lemma cells_loop_rejects (cells : list (value * label * label)) (s : Matrix) :
  forallb cell_accepted cells = false ->
  exists msg, for_each cells scores_check_cell s = (Raised (ValueError msg), s).
Proof.
  induction cells as [|c cells IH]; simpl; [discriminate|].
  destruct (cell_accepted c) eqn:Hc; simpl; intros H.
  - destruct (IH H) as [msg Hrun]. exists msg.
    rewrite (bind_returned _ _ s s tt); [exact Hrun|].
    now apply scores_check_cell_accepts.
  - destruct (scores_check_cell_rejects c s Hc) as [msg Hrun].
    exists msg. now apply bind_raised.
Qed.

(** X5. A cell that is not a number ([None], or a string such as ['NA'])
    makes the scores validator raise in the loop over the cells, before any
    standard deviation is computed. *)
Theorem validate_scores_rejects_non_numeric_cell
    (m : Matrix) (row : list value) (v : value) :
  labelled m ->
  rows_labels m <> [] -> cols_labels m <> [] ->
  In row (data (mat m)) -> In v row -> numeric v = false ->
  exists msg,
    outcome scores_checks_before_std m = Raised (ValueError msg) /\
    outcome _validate_scores m = Raised (ValueError msg).
Proof.
  intros Hlab Hr Hc Hrow Hv Hnum.
  destruct (iter_covers m row v Hlab Hrow Hv) as (c & r & Hin).
  assert (forallb cell_accepted (iter m) = false) as Hrej.
  { destruct (forallb cell_accepted (iter m)) eqn:E; [|reflexivity].
    rewrite forallb_forall in E. specialize (E _ Hin).
    unfold cell_accepted in E. rewrite Hnum in E. discriminate E. }
  destruct (cells_loop_rejects (iter m) m Hrej) as [msg Hrun].
  assert (scores_checks_before_std m = (Raised (ValueError msg), m)) as Hpre.
  { unfold scores_checks_before_std.
    rewrite (bind_returned _ _ m m tt) by now apply scores_check_labels_run.
    rewrite (bind_returned _ _ m m tt) by apply scores_check_dtype_run.
    unfold scores_check_elements, bind, read. exact Hrun. }
  exists msg. unfold outcome. split.
  - now rewrite Hpre.
  - rewrite validate_scores_stages.
    now rewrite (bind_raised _ _ m m (ValueError msg) Hpre).
Qed.

Lemma validate_scores_rejects_non_numeric_cell_witness :
  In [VNone] (data (mat scores_with_None)) /\
  outcome _validate_scores scores_with_None
  = Raised (ValueError "Scores input cannot contain None.").
Proof.
  assert (In [VNone] (data (mat scores_with_None))) as Hrow
    by (right; left; reflexivity).
  split; [exact Hrow|].
  assert (labelled scores_with_None) as Hlab.
  { split; [split; [reflexivity | repeat constructor] | split; reflexivity]. }
  destruct (validate_scores_rejects_non_numeric_cell scores_with_None
              [VNone] VNone Hlab ltac:(discriminate) ltac:(discriminate)
              Hrow (or_introl eq_refl) eq_refl)
    as (msg & Hpre & Hrun).
  rewrite Hrun. rewrite <- Hpre. reflexivity.
Defined.

(** ** The outcomes of the validators, case by case *)

Lemma forallb_first_rejected {A : Type} (ok : A -> bool) (xs : list A) :
  forallb ok xs = false ->
  exists pre x post,
    xs = pre ++ x :: post /\ forallb ok pre = true /\ ok x = false.
Proof.
  induction xs as [|y xs IH]; simpl; [discriminate|].
  destruct (ok y) eqn:Hy; simpl; intros H.
  - destruct (IH H) as (pre & x & post & -> & Hpre & Hx).
    exists (y :: pre), x, post. simpl. now rewrite Hy, Hpre.
  - exists [], y, xs. now repeat split.
Qed.

Lemma scores_check_cell_fails cell (s : Matrix) :
  cell_accepted cell = false ->
  scores_check_cell cell s = (Raised (scores_cell_failure cell), s).
Proof.
  destruct cell as [[score col_label] row_label].
  unfold cell_accepted, numeric, present, scores_check_cell,
    scores_cell_failure, bind.
  generalize (label_in col_label [Some "Nan"; None])
             (label_in row_label [Some "Nan"; None]).
  intros bc br.
  destruct score, bc, br; simpl; intros H; try discriminate H; reflexivity.
Qed.

(** The loop over the cells returns when every triple is let through, and
    raises the failure of the first rejected triple otherwise. *)
Lemma scores_cells_loop (cells : list (value * label * label)) (s : Matrix) :
  (forallb cell_accepted cells = true /\
   for_each cells scores_check_cell s = (Returned tt, s)) \/
  (exists cell, In cell cells /\ cell_accepted cell = false /\
     for_each cells scores_check_cell s = (Raised (scores_cell_failure cell), s)).
Proof.
  destruct (forallb cell_accepted cells) eqn:Hall.
  - left. split; [reflexivity|]. apply for_each_returns. intros c Hc.
    apply scores_check_cell_accepts. rewrite forallb_forall in Hall. auto.
  - right. destruct (forallb_first_rejected _ _ Hall)
      as (pre & x & post & -> & Hpre & Hx).
    exists x. split; [apply in_elt | split; [exact Hx|]].
    apply for_each_raises; [|now apply scores_check_cell_fails].
    intros y Hy. apply scores_check_cell_accepts.
    rewrite forallb_forall in Hpre. auto.
Qed.

(** The loop over the standard deviations returns when none is zero, and
    raises with the label of the first zero one otherwise. *)
Lemma sd_loop (sds : list float) (cols : list label) (s : Matrix) :
  (no_zero_sd sds cols /\
   for_each
     (map (fun '(sd, col_label) => (VFloat sd, col_label, Some "sd"))
          (combine sds cols))
     scores_check_sd s = (Returned tt, s)) \/
  (exists sd col_label,
     In (sd, col_label) (combine sds cols) /\ feqb sd fzero = true /\
     for_each
       (map (fun '(sd, col_label) => (VFloat sd, col_label, Some "sd"))
            (combine sds cols))
       scores_check_sd s
     = (Raised (ValueError ("Standard deviation in background is 0 in column:"
                              ++ str_of_label col_label)), s)).
Proof.
  unfold no_zero_sd.
  induction (combine sds cols) as [|[sd c] ps IH]; cbn [map for_each].
  - left. split; [constructor | reflexivity].
  - destruct (feqb sd fzero) eqn:Hz.
    + right. exists sd, c. split; [now left | split; [exact Hz|]].
      apply bind_raised. rewrite scores_check_sd_run, Hz. reflexivity.
    + assert (scores_check_sd (VFloat sd, c, Some "sd") s = (Returned tt, s))
        as Hrun by (rewrite scores_check_sd_run, Hz; reflexivity).
      rewrite (bind_returned _ _ s s tt Hrun).
      destruct IH as [[Hall Hret] | (sd' & c' & Hin & Hz' & Hraise)].
      * left. split; [constructor; assumption | exact Hret].
      * right. exists sd', c'. split; [now right | split; assumption].
Qed.

Lemma scores_no_names (m : Matrix) :
  rows_labels m = [] \/ cols_labels m = [] ->
  _validate_scores m
  = (Raised (ValueError
       "Scores must be a named list but supplied list contains no names."), m).
Proof.
  intros H. unfold _validate_scores, scores_check_labels, bind, read.
  destruct (cols_labels m) as [|c cols] eqn:Ec; [reflexivity|].
  destruct H as [Er | E]; [|discriminate E].
  simpl. rewrite Er. reflexivity.
Qed.

Lemma scores_checks_before_std_run (m : Matrix) :
  rows_labels m <> [] -> cols_labels m <> [] ->
  scores_checks_before_std m = for_each (iter m) scores_check_cell m.
Proof.
  intros Hr Hc. unfold scores_checks_before_std.
  rewrite (bind_returned _ _ m m tt) by now apply scores_check_labels_run.
  rewrite (bind_returned _ _ m m tt) by apply scores_check_dtype_run.
  reflexivity.
Qed.

Lemma scores_check_std_fails (m : Matrix) (e : exn) :
  std_axis0 (mat m) = inl e -> scores_check_std m = (Raised e, m).
Proof.
  intros H. unfold scores_check_std, bind, read. rewrite H. reflexivity.
Qed.

(** The five ways in which [_validate_scores] ends. *)
Lemma validate_scores_cases (m : Matrix) :
  ((rows_labels m = [] \/ cols_labels m = []) /\
   outcome _validate_scores m
   = Raised (ValueError
       "Scores must be a named list but supplied list contains no names."))
  \/
  (rows_labels m <> [] /\ cols_labels m <> [] /\
   exists cell, In cell (iter m) /\ cell_accepted cell = false /\
     outcome _validate_scores m = Raised (scores_cell_failure cell))
  \/
  (rows_labels m <> [] /\ cols_labels m <> [] /\
   forallb cell_accepted (iter m) = true /\
   exists e, std_axis0 (mat m) = inl e /\
     outcome _validate_scores m = Raised e)
  \/
  (rows_labels m <> [] /\ cols_labels m <> [] /\
   forallb cell_accepted (iter m) = true /\
   exists sds sd col_label,
     std_axis0 (mat m) = inr sds /\
     In (sd, col_label) (combine sds (cols_labels m)) /\
     feqb sd fzero = true /\
     outcome _validate_scores m
     = Raised (ValueError ("Standard deviation in background is 0 in column:"
                             ++ str_of_label col_label)))
  \/
  (rows_labels m <> [] /\ cols_labels m <> [] /\
   forallb cell_accepted (iter m) = true /\
   exists sds,
     std_axis0 (mat m) = inr sds /\ no_zero_sd sds (cols_labels m) /\
     outcome _validate_scores m = Returned tt).
Proof.
  destruct (list_eq_dec label_eq_dec (rows_labels m) []) as [Er|Hr].
  { left. split; [now left|]. unfold outcome. now rewrite scores_no_names; [|left]. }
  destruct (list_eq_dec label_eq_dec (cols_labels m) []) as [Ec|Hc].
  { left. split; [now right|]. unfold outcome. now rewrite scores_no_names; [|right]. }
  right. unfold outcome. rewrite validate_scores_stages.
  pose proof (scores_checks_before_std_run m Hr Hc) as Hpre.
  destruct (scores_cells_loop (iter m) m)
    as [[Hall Hret] | (cell & Hin & Hrej & Hraise)].
  - right. rewrite Hret in Hpre. rewrite (bind_returned _ _ m m tt Hpre).
    destruct (std_axis0 (mat m)) as [e|sds] eqn:Hstd.
    + left. repeat (split; [assumption|]). exists e. split; [reflexivity|].
      now rewrite (scores_check_std_fails m e Hstd).
    + right. rewrite (scores_check_std_run m sds Hstd).
      destruct (sd_loop sds (cols_labels m) m)
        as [[Hnz Hrun] | (sd & c & Hinsd & Hz & Hrun)]; rewrite Hrun.
      * right. repeat (split; [assumption|]). exists sds. now repeat split.
      * left. repeat (split; [assumption|]). exists sds, sd, c. now repeat split.
  - left. repeat (split; [assumption|]). exists cell.
    split; [assumption | split; [assumption|]].
    rewrite Hraise in Hpre. now rewrite (bind_raised _ _ m m _ Hpre).
Qed.

(** X6. [_validate_scores] returns exactly on the matrices with non-empty
    label lists, whose iteration yields only numbers with labels that are
    neither [None] nor ['Nan'], on which [np.std] returns, and whose columns
    have no standard deviation equal to zero. *)
Theorem validate_scores_returns_iff (m : Matrix) :
  outcome _validate_scores m = Returned tt <->
  rows_labels m <> [] /\ cols_labels m <> [] /\
  forallb cell_accepted (iter m) = true /\
  exists sds, std_axis0 (mat m) = inr sds /\ no_zero_sd sds (cols_labels m).
Proof.
  destruct (validate_scores_cases m)
    as [[Hn Ho] | [(Hr & Hc & cell & Hin & Hrej & Ho)
       | [(Hr & Hc & Hall & e & Hstd & Ho)
       | [(Hr & Hc & Hall & sds & sd & c & Hstd & Hin & Hz & Ho)
       | (Hr & Hc & Hall & sds & Hstd & Hnz & Ho)]]]]; rewrite Ho.
  - split; [discriminate|]. intros (Hr & Hc & _). destruct Hn; contradiction.
  - split; [discriminate|]. intros (_ & _ & Hall & _).
    rewrite forallb_forall in Hall. rewrite (Hall cell Hin) in Hrej.
    discriminate Hrej.
  - split; [discriminate|]. intros (_ & _ & _ & sds & Hstd' & _). congruence.
  - split; [discriminate|]. intros (_ & _ & _ & sds' & Hstd' & Hnz).
    assert (sds' = sds) as -> by congruence.
    unfold no_zero_sd in Hnz. rewrite Forall_forall in Hnz.
    specialize (Hnz _ Hin). simpl in Hnz. congruence.
  - split; [intros _ | reflexivity].
    repeat (split; [assumption|]). now exists sds.
Qed.

(** X7. [_validate_scores] either returns or raises one of: the failure
    about names, the failure of a rejected cell, the [TypeError] of [np.std],
    the failure about a zero standard deviation with the label of a column.
    It never raises a [Warning], never the failure about NA values (line 37)
    and never the failure about a standard deviation that is NA (line 51). *)
Theorem validate_scores_outcomes (m : Matrix) :
  (outcome _validate_scores m = Returned tt \/
   exists e, outcome _validate_scores m = Raised e /\ scores_failure m e) /\
  (forall msg, outcome _validate_scores m <> Raised (Warning msg)) /\
  outcome _validate_scores m
    <> Raised (ValueError "Scores input cannot contain NA values.") /\
  (forall l, outcome _validate_scores m
             <> Raised (ValueError
                  ("Standard deviation in background is NA in column:" ++ l))).
Proof.
  assert (forall e, std_axis0 (mat m) = inl e -> exists msg, e = TypeError msg)
    as Htype.
  { unfold std_axis0. intros e.
    destruct (dtype (mat m)); try destruct (std_columns _ _);
      intros H; inversion H; eexists; reflexivity. }
  assert (forall cell, exists msg,
            scores_cell_failure cell = ValueError msg /\
            msg <> "Scores input cannot contain NA values." /\
            forall l, msg <> ("Standard deviation in background is NA in column:"
                                ++ l)%string) as Hcell.
  { intros [[v c] r]. unfold scores_cell_failure.
    eexists. split; [reflexivity|].
    destruct (is_None v), (negb (numeric v)), (label_in c [Some "Nan"; None]);
      split; try discriminate; intros l; discriminate. }
  destruct (validate_scores_cases m)
    as [[Hn Ho] | [(Hr & Hc & cell & Hin & Hrej & Ho)
       | [(Hr & Hc & Hall & e & Hstd & Ho)
       | [(Hr & Hc & Hall & sds & sd & c & Hstd & Hin & Hz & Ho)
       | (Hr & Hc & Hall & sds & Hstd & Hnz & Ho)]]]]; rewrite Ho.
  - split; [right; eexists; split; [reflexivity | now left]|].
    split; [discriminate | split; [discriminate | intros l; discriminate]].
  - split; [right; eexists; split; [reflexivity | right; left; now exists cell]|].
    destruct (Hcell cell) as (msg & -> & H1 & H2).
    split; [discriminate | split; [congruence | intros l E; apply (H2 l); congruence]].
  - split; [right; eexists; split; [reflexivity | now right; right; left]|].
    destruct (Htype e Hstd) as [msg ->].
    split; [discriminate | split; [discriminate | intros l; discriminate]].
  - split.
    { right. eexists. split; [reflexivity|]. right; right; right.
      exists c. split; [|reflexivity]. eapply in_combine_r; eauto. }
    split; [discriminate | split; [discriminate | intros l; discriminate]].
  - split; [now left|].
    split; [discriminate | split; [discriminate | intros l; discriminate]].
Qed.

Lemma kernel_check_cell_fails cell (s : pyobj) :
  cell_accepted cell = false ->
  kernel_check_cell cell s = (Raised (kernel_cell_failure cell), s).
Proof.
  destruct cell as [[score col_label] row_label].
  unfold cell_accepted, numeric, present, kernel_check_cell,
    kernel_cell_failure, bind.
  generalize (label_in col_label [Some "Nan"; None])
             (label_in row_label [Some "Nan"; None]).
  intros bc br.
  destruct score, bc, br; simpl; intros H; try discriminate H; reflexivity.
Qed.

Lemma kernel_cells_loop (cells : list (value * label * label)) (s : pyobj) :
  (forallb cell_accepted cells = true /\
   for_each cells kernel_check_cell s = (Returned tt, s)) \/
  (exists cell, In cell cells /\ cell_accepted cell = false /\
     for_each cells kernel_check_cell s = (Raised (kernel_cell_failure cell), s)).
Proof.
  destruct (forallb cell_accepted cells) eqn:Hall.
  - left. split; [reflexivity|]. apply for_each_returns. intros c Hc.
    apply kernel_check_cell_accepts. rewrite forallb_forall in Hall. auto.
  - right. destruct (forallb_first_rejected _ _ Hall)
      as (pre & x & post & -> & Hpre & Hx).
    exists x. split; [apply in_elt | split; [exact Hx|]].
    apply for_each_raises; [|now apply kernel_check_cell_fails].
    intros y Hy. apply kernel_check_cell_accepts.
    rewrite forallb_forall in Hpre. auto.
Qed.

(** The checks of lines 102-125 on a square matrix. *)
Lemma kernel_checks_square (k : Matrix) (s : pyobj) :
  n_rows (mat k) = n_cols (mat k) ->
  kernel_checks k s =
  (when (labels_eqb (cols_labels k) [])
     (raise (ValueError "'k' kernel must have row names.")) ;;
   when (labels_eqb (rows_labels k) [])
     (raise (ValueError "'k' kernel must have column names.")) ;;
   when (negb (labels_eqb (rows_labels k) (cols_labels k)))
     (raise (ValueError "'k' rownames and colnames must coincide.")) ;;
   for_each (iter k) kernel_check_cell ;;
   when (negb (unique_len label_eq_dec (rows_labels k)
               =? length (rows_labels k))%nat)
     (raise (ValueError "'k' cannot contain duplicated row names.")) ;;
   when (negb (unique_len label_eq_dec (cols_labels k)
               =? length (cols_labels k))%nat)
     (raise (ValueError "'k' cannot contain duplicated column names."))) s.
Proof.
  intros Hsq. unfold kernel_checks, n_rows, n_cols in *.
  apply Nat.eqb_eq in Hsq.
  unfold bind at 1. simpl (when (_ && _) _ s).
  unfold bind at 1. rewrite Hsq. reflexivity.
Qed.

(** The seven ways in which [_validate_K] ends on a matrix. *)
Lemma validate_K_cases (k : Matrix) :
  (n_rows (mat k) <> n_cols (mat k) /\
   outcome _validate_K (ObjMatrix k)
   = Raised (ValueError
       ("'k' must be a square matrix, but it has " ++ str_of_nat (n_rows (mat k))
          ++ " rows and " ++ str_of_nat (n_cols (mat k)) ++ " columns.")))
  \/
  (n_rows (mat k) = n_cols (mat k) /\ cols_labels k = [] /\
   outcome _validate_K (ObjMatrix k)
   = Raised (ValueError "'k' kernel must have row names."))
  \/
  (n_rows (mat k) = n_cols (mat k) /\ cols_labels k <> [] /\
   rows_labels k = [] /\
   outcome _validate_K (ObjMatrix k)
   = Raised (ValueError "'k' kernel must have column names."))
  \/
  (n_rows (mat k) = n_cols (mat k) /\ cols_labels k <> [] /\
   rows_labels k <> [] /\ rows_labels k <> cols_labels k /\
   outcome _validate_K (ObjMatrix k)
   = Raised (ValueError "'k' rownames and colnames must coincide."))
  \/
  (n_rows (mat k) = n_cols (mat k) /\ rows_labels k <> [] /\
   rows_labels k = cols_labels k /\
   exists cell, In cell (iter k) /\ cell_accepted cell = false /\
     outcome _validate_K (ObjMatrix k) = Raised (kernel_cell_failure cell))
  \/
  (n_rows (mat k) = n_cols (mat k) /\ rows_labels k <> [] /\
   rows_labels k = cols_labels k /\
   forallb cell_accepted (iter k) = true /\ ~ NoDup (rows_labels k) /\
   outcome _validate_K (ObjMatrix k)
   = Raised (ValueError "'k' cannot contain duplicated row names."))
  \/
  (n_rows (mat k) = n_cols (mat k) /\ rows_labels k <> [] /\
   rows_labels k = cols_labels k /\
   forallb cell_accepted (iter k) = true /\ NoDup (rows_labels k) /\
   outcome _validate_K (ObjMatrix k) = Returned tt).
Proof.
  assert (outcome _validate_K (ObjMatrix k)
          = fst (kernel_checks k (ObjMatrix k))) as Ho by reflexivity.
  rewrite Ho. clear Ho.
  remember (fst (kernel_checks k (ObjMatrix k))) as r eqn:Hrun.
  destruct (Nat.eq_dec (n_rows (mat k)) (n_cols (mat k))) as [Hsq|Hsq].
  2:{ left. split; [assumption|].
      now rewrite kernel_checks_not_square in Hrun. }
  right. rewrite (kernel_checks_square k _ Hsq) in Hrun.
  destruct (list_eq_dec label_eq_dec (cols_labels k) []) as [Ec|Hc].
  { left. repeat (split; [assumption|]). rewrite Ec in Hrun. exact Hrun. }
  right.
  pose proof Hc as Hc'. apply labels_eqb_neq in Hc'.
  unfold bind at 1 in Hrun. rewrite Hc' in Hrun. cbn [when ret] in Hrun.
  destruct (list_eq_dec label_eq_dec (rows_labels k) []) as [Er|Hr].
  { left. repeat (split; [assumption|]). rewrite Er in Hrun. exact Hrun. }
  right.
  pose proof Hr as Hr'. apply labels_eqb_neq in Hr'.
  unfold bind at 1 in Hrun. rewrite Hr' in Hrun. cbn [when ret] in Hrun.
  destruct (list_eq_dec label_eq_dec (rows_labels k) (cols_labels k))
    as [Heq|Hneq].
  2:{ left. repeat (split; [assumption|]).
      apply labels_eqb_neq in Hneq. unfold bind in Hrun.
      rewrite Hneq in Hrun. exact Hrun. }
  right.
  assert (labels_eqb (rows_labels k) (cols_labels k) = true) as Heq'
    by now apply labels_eqb_eq.
  unfold bind at 1 in Hrun. rewrite Heq' in Hrun. cbn [when ret negb] in Hrun.
  destruct (kernel_cells_loop (iter k) (ObjMatrix k))
    as [[Hall Hret] | (cell & Hin & Hrej & Hraise)].
  2:{ left. repeat (split; [assumption|]). exists cell.
      split; [assumption | split; [assumption|]].
      now rewrite (bind_raised _ _ _ _ _ Hraise) in Hrun. }
  right. rewrite (bind_returned _ _ _ _ tt Hret), <- Heq in Hrun.
  destruct (unique_len label_eq_dec (rows_labels k)
            =? length (rows_labels k))%nat eqn:Hu.
  - right. repeat (split; [assumption|]).
    apply Nat.eqb_eq, unique_len_NoDup in Hu. split; [assumption|].
    exact Hrun.
  - left. repeat (split; [assumption|]). split; [|exact Hrun].
    intros Hnd. apply (unique_len_NoDup label_eq_dec), Nat.eqb_eq in Hnd.
    congruence.
Qed.


(** X9. [_validate_K] raises ['k' must be a matrix] on every argument that
    is not a matrix; on a matrix it returns or raises one of the failures of
    [kernel_failure].  Whatever the argument, what it raises is a
    [ValueError], and it is neither the failure about NA scores (line 116) nor
    the failure about duplicated column names (line 125). *)
Theorem validate_K_outcomes :
  (forall o, (forall k, o <> ObjMatrix k) ->
     outcome _validate_K o = Raised (ValueError "'k' must be a matrix")) /\
  (forall k,
     outcome _validate_K (ObjMatrix k) = Returned tt \/
     exists e, outcome _validate_K (ObjMatrix k) = Raised e /\ kernel_failure k e) /\
  (forall o e, outcome _validate_K o = Raised e ->
     exists msg, e = ValueError msg /\
       msg <> "Scores input cannot contain NA. But background ." /\
       msg <> "'k' cannot contain duplicated column names.").
Proof.
  assert (forall o, (forall k, o <> ObjMatrix k) ->
            outcome _validate_K o = Raised (ValueError "'k' must be a matrix"))
    as Hother.
  { intros [| s | g | k] H; try reflexivity. now contradiction (H k). }
  assert (forall k,
     outcome _validate_K (ObjMatrix k) = Returned tt \/
     exists e, outcome _validate_K (ObjMatrix k) = Raised e /\ kernel_failure k e)
    as Hmat.
  { intros k. unfold kernel_failure.
    destruct (validate_K_cases k)
      as [[Hsq Ho] | [(Hsq & Hc & Ho) | [(Hsq & Hc & Hr & Ho)
         | [(Hsq & Hc & Hr & Hne & Ho)
         | [(Hsq & Hr & Heq & cell & Hin & Hrej & Ho)
         | [(Hsq & Hr & Heq & Hall & Hdup & Ho)
         | (Hsq & Hr & Heq & Hall & Hnd & Ho)]]]]]]; rewrite Ho;
      [right | right | right | right | right | right | now left];
      eexists; (split; [reflexivity|]); try tauto.
    do 4 right. left. now exists cell. }
  split; [exact Hother | split; [exact Hmat|]].
  intros o e Ho.
  destruct o as [| s | g | k];
    try (rewrite Hother in Ho by discriminate; injection Ho as <-;
         eexists; split; [reflexivity | split; discriminate]).
  destruct (Hmat k) as [Hret | (e' & He' & Hfail)]; [congruence|].
  assert (e' = e) as -> by congruence.
  destruct Hfail as [-> | [-> | [-> | [-> | [(cell & _ & _ & ->) | ->]]]]];
    try (eexists; split; [reflexivity | split; discriminate]).
  destruct cell as [[v c] r]. unfold kernel_cell_failure.
  eexists; split; [reflexivity|].
  destruct (negb (numeric v)); split; discriminate.
Qed.

(** X10. A square matrix with equal non-empty row and column labels and
    accepted cells, in which a label occurs twice, is rejected for its
    duplicated row names. *)
Theorem validate_K_rejects_duplicate_labels (k : Matrix) :
  n_rows (mat k) = n_cols (mat k) ->
  rows_labels k <> [] -> rows_labels k = cols_labels k ->
  forallb cell_accepted (iter k) = true ->
  ~ NoDup (rows_labels k) ->
  outcome _validate_K (ObjMatrix k)
  = Raised (ValueError "'k' cannot contain duplicated row names.").
Proof.
  intros Hsq Hr Heq Hall Hdup.
  destruct (validate_K_cases k)
    as [[Hsq' Ho] | [(_ & Hc & Ho) | [(_ & _ & Hr' & Ho)
       | [(_ & _ & _ & Hne & Ho)
       | [(_ & _ & _ & cell & Hin & Hrej & Ho)
       | [(_ & _ & _ & _ & _ & Ho)
       | (_ & _ & _ & _ & Hnd & Ho)]]]]]]; try contradiction; try congruence.
  rewrite forallb_forall in Hall. rewrite (Hall cell Hin) in Hrej.
  discriminate Hrej.
Qed.

Lemma validate_K_rejects_duplicate_labels_witness :
  rows_labels kernel_AA = [Some "A"; Some "A"] /\
  outcome _validate_K (ObjMatrix kernel_AA)
  = Raised (ValueError "'k' cannot contain duplicated row names.").
Proof.
  split; [reflexivity|].
  apply (validate_K_rejects_duplicate_labels kernel_AA).
  - reflexivity.
  - discriminate.
  - reflexivity.
  - reflexivity.
  - intros H. apply (unique_len_NoDup label_eq_dec) in H. discriminate H.
Defined.




Lemma in_combine_some_r {A B : Type} (y : B) (l : list A) (l' : list B) :
  In y l' -> length l' <= length l -> exists x, In (x, y) (combine l l').
Proof.
  revert l. induction l' as [|b l' IH]; intros [|a l] Hin Hlen;
    simpl in *; try contradiction; try lia.
  destruct Hin as [-> | Hin].
  - exists a. now left.
  - destruct (IH l Hin ltac:(lia)) as [x Hx]. exists x. now right.
Qed.

(** Iteration reaches every column label and every row label of a matrix
    whose labels have the lengths of its dimensions and are not empty. *)
Lemma iter_covers_col (m : Matrix) (c : label) :
  labelled m -> rows_labels m <> [] -> In c (cols_labels m) ->
  exists v r, In (v, c, r) (iter m).
Proof.
  intros [[Hrows Hrect] [Hrl Hcl]] Hne Hc. unfold iter.
  destruct (rows_labels m) as [|r rl]; [congruence|].
  destruct (data (mat m)) as [|row rows]; [simpl in *; lia|].
  inversion Hrect as [|? ? Hrow _]; subst.
  destruct (in_combine_some_r c row (cols_labels m) Hc ltac:(lia)) as [v Hv].
  exists v, r. simpl. apply in_or_app. left.
  rewrite in_map_iff. exists (v, c). now split.
Qed.

Lemma iter_covers_row (m : Matrix) (r : label) :
  labelled m -> cols_labels m <> [] -> In r (rows_labels m) ->
  exists v c, In (v, c, r) (iter m).
Proof.
  intros [[Hrows Hrect] [Hrl Hcl]] Hne Hr. unfold iter.
  destruct (in_combine_some_r r (data (mat m)) (rows_labels m) Hr ltac:(lia))
    as [row Hrow].
  rewrite Forall_forall in Hrect.
  pose proof (Hrect row (in_combine_l _ _ _ _ Hrow)) as Hlen.
  destruct (cols_labels m) as [|c cl]; [congruence|].
  destruct row as [|v row]; [simpl in *; lia|].
  exists v, c. rewrite in_flat_map. exists (v :: row, r).
  split; [assumption | now left].
Qed.

Lemma missing_label_rejected (cells : list (value * label * label))
    (v : value) (c r : label) :
  In (v, c, r) cells -> present c = false \/ present r = false ->
  forallb cell_accepted cells = true -> False.
Proof.
  intros Hin Hmiss Hall. rewrite forallb_forall in Hall.
  specialize (Hall _ Hin). unfold cell_accepted in Hall.
  destruct Hmiss as [E | E]; rewrite E in Hall;
    rewrite ?andb_false_r in Hall; discriminate Hall.
Qed.

(** X12. On a scores matrix whose labels have the lengths of its dimensions
    and whose cells all are numbers, a column label that is [None] or ['Nan']
    is rejected with the failure that speaks of row names (line 43) when the
    row labels are all present, and such a row label with the failure that
    speaks of col names (line 45) when the column labels are all present. *)
Theorem validate_scores_rejects_missing_label (m : Matrix) :
  labelled m ->
  rows_labels m <> [] -> cols_labels m <> [] ->
  Forall (Forall (fun v => numeric v = true)) (data (mat m)) ->
  (Exists (fun l => present l = false) (cols_labels m) ->
   Forall (fun l => present l = true) (rows_labels m) ->
   outcome _validate_scores m
   = Raised (ValueError
       "The scores in background must have row names according to the scored nodes."))
  /\
  (Exists (fun l => present l = false) (rows_labels m) ->
   Forall (fun l => present l = true) (cols_labels m) ->
   outcome _validate_scores m
   = Raised (ValueError
       "The scores in background must have col names to differentiate score sets.")).
Proof.
  intros Hlab Hr Hc Hnum.
  assert (forall v c r, In (v, c, r) (iter m) ->
            numeric v = true /\ In c (cols_labels m) /\ In r (rows_labels m))
    as Hcell.
  { intros v c r Hin. apply in_iter in Hin.
    destruct Hin as [[row [Hrow Hv]] [Hcin Hrin]].
    rewrite Forall_forall in Hnum. specialize (Hnum row Hrow).
    rewrite Forall_forall in Hnum. auto. }
  split; intros Hmiss Hpres; apply Exists_exists in Hmiss;
    destruct Hmiss as (l & Hl & Hlmiss); rewrite Forall_forall in Hpres.
  - destruct (iter_covers_col m l Hlab Hr Hl) as (v0 & r0 & Hin0).
    destruct (validate_scores_cases m)
      as [[Hn _] | [(_ & _ & cell & Hin & Hrej & Ho)
         | [(_ & _ & Hall & _) | [(_ & _ & Hall & _) | (_ & _ & Hall & _)]]]];
      try (exfalso; eapply missing_label_rejected; eauto; fail).
    + destruct Hn; contradiction.
    + rewrite Ho. destruct cell as [[v c] r].
      destruct (Hcell v c r Hin) as (Hv & _ & Hrin).
      unfold cell_accepted in Hrej. rewrite Hv, (Hpres r Hrin) in Hrej.
      unfold present in Hrej. cbn [andb] in Hrej.
      rewrite andb_true_r in Hrej. apply negb_false_iff in Hrej.
      unfold scores_cell_failure. rewrite Hv, Hrej.
      destruct v; try discriminate Hv; reflexivity.
  - destruct (iter_covers_row m l Hlab Hc Hl) as (v0 & c0 & Hin0).
    destruct (validate_scores_cases m)
      as [[Hn _] | [(_ & _ & cell & Hin & Hrej & Ho)
         | [(_ & _ & Hall & _) | [(_ & _ & Hall & _) | (_ & _ & Hall & _)]]]];
      try (exfalso; eapply missing_label_rejected; eauto; fail).
    + destruct Hn; contradiction.
    + rewrite Ho. destruct cell as [[v c] r].
      destruct (Hcell v c r Hin) as (Hv & Hcin & _).
      pose proof (Hpres c Hcin) as Hpc. unfold present in Hpc.
      apply negb_true_iff in Hpc.
      unfold scores_cell_failure. rewrite Hv, Hpc.
      destruct v; try discriminate Hv; reflexivity.
Qed.

Lemma validate_scores_rejects_missing_label_witness :
  cols_labels scores_missing_col_label = [Some "exp1"; None] /\
  outcome _validate_scores scores_missing_col_label
  = Raised (ValueError
      "The scores in background must have row names according to the scored nodes.").
Proof.
  split; [reflexivity|].
  assert (labelled scores_missing_col_label) as Hlab.
  { split; [split; [reflexivity | repeat constructor] | split; reflexivity]. }
  apply (validate_scores_rejects_missing_label scores_missing_col_label Hlab).
  - discriminate.
  - discriminate.
  - repeat constructor.
  - right. left. reflexivity.
  - repeat constructor.
Defined.

(** X13. On a square kernel matrix with equal non-empty row and column labels
    that have the lengths of its dimensions, a cell that is not a number is
    rejected as not numeric when the labels are all present, and a label that
    is [None] or ['Nan'] is rejected as an NA dimname when the cells all are
    numbers. *)
Theorem validate_K_rejects_bad_cell (k : Matrix) :
  labelled k ->
  n_rows (mat k) = n_cols (mat k) ->
  rows_labels k <> [] -> rows_labels k = cols_labels k ->
  (Exists (Exists (fun v => numeric v = false)) (data (mat k)) ->
   Forall (fun l => present l = true) (rows_labels k) ->
   outcome _validate_K (ObjMatrix k)
   = Raised (ValueError "'k' must be a numeric matrix, but it is not numeric."))
  /\
  (Exists (fun l => present l = false) (rows_labels k) ->
   Forall (Forall (fun v => numeric v = true)) (data (mat k)) ->
   outcome _validate_K (ObjMatrix k)
   = Raised (ValueError "'k' dimnames cannot be NA.")).
Proof.
  intros Hlab Hsq Hr Heq.
  assert (cols_labels k <> []) as Hc by congruence.
  split; intros Hbad Hgood.
  - apply Exists_exists in Hbad. destruct Hbad as (row & Hrow & Hbad).
    apply Exists_exists in Hbad. destruct Hbad as (v0 & Hv0 & Hnum0).
    destruct (iter_covers k row v0 Hlab Hrow Hv0) as (c0 & r0 & Hin0).
    rewrite Forall_forall in Hgood.
    destruct (validate_K_cases k)
      as [[Hsq' _] | [(_ & Hc' & _) | [(_ & _ & Hr' & _)
         | [(_ & _ & _ & Hne & _)
         | [(_ & _ & _ & cell & Hin & Hrej & Ho)
         | [(_ & _ & _ & Hall & _) | (_ & _ & _ & Hall & _)]]]]]];
      try contradiction;
      try (exfalso; rewrite forallb_forall in Hall; specialize (Hall _ Hin0);
           unfold cell_accepted in Hall; rewrite Hnum0 in Hall;
           discriminate Hall).
    rewrite Ho. destruct cell as [[v c] r].
    apply in_iter in Hin. destruct Hin as (_ & Hcin & Hrin).
    rewrite <- Heq in Hcin.
    unfold cell_accepted in Hrej.
    rewrite (Hgood c Hcin), (Hgood r Hrin), !andb_true_r in Hrej.
    unfold kernel_cell_failure. now rewrite Hrej.
  - apply Exists_exists in Hbad. destruct Hbad as (l & Hl & Hmiss).
    destruct (iter_covers_row k l Hlab Hc Hl) as (v0 & c0 & Hin0).
    destruct (validate_K_cases k)
      as [[Hsq' _] | [(_ & Hc' & _) | [(_ & _ & Hr' & _)
         | [(_ & _ & _ & Hne & _)
         | [(_ & _ & _ & cell & Hin & Hrej & Ho)
         | [(_ & _ & _ & Hall & _) | (_ & _ & _ & Hall & _)]]]]]];
      try contradiction;
      try (exfalso; eapply missing_label_rejected; eauto; fail).
    rewrite Ho. destruct cell as [[v c] r].
    apply in_iter in Hin. destruct Hin as ((row & Hrow & Hv) & _).
    rewrite Forall_forall in Hgood. specialize (Hgood row Hrow).
    rewrite Forall_forall in Hgood.
    unfold kernel_cell_failure. now rewrite (Hgood v Hv).
Qed.

Lemma validate_K_rejects_bad_cell_witness :
  In [VFloat f_1; VStr "NA"] (data (mat kernel_with_string)) /\
  outcome _validate_K (ObjMatrix kernel_with_string)
  = Raised (ValueError "'k' must be a numeric matrix, but it is not numeric.").
Proof.
  split; [left; reflexivity|].
  assert (labelled kernel_with_string) as Hlab.
  { split; [split; [reflexivity | repeat constructor] | split; reflexivity]. }
  apply (validate_K_rejects_bad_cell kernel_with_string Hlab).
  - reflexivity.
  - discriminate.
  - reflexivity.
  - left. right. left. reflexivity.
  - repeat constructor.
Defined.

Lemma kernel_check_cell_run cell (s : pyobj) :
  kernel_check_cell cell s =
  (if cell_accepted cell then Returned tt
   else Raised (kernel_cell_failure cell), s).
Proof.
  destruct (cell_accepted cell) eqn:H.
  - now apply kernel_check_cell_accepts.
  - now apply kernel_check_cell_fails.
Qed.

Lemma cell_pattern_decides (x y : value * label * label) :
  cell_pattern x = cell_pattern y ->
  cell_accepted x = cell_accepted y /\
  kernel_cell_failure x = kernel_cell_failure y.
Proof.
  destruct x as [[v c] r], y as [[v' c'] r']. simpl.
  intros E. injection E as -> -> ->. now split.
Qed.

Lemma kernel_loop_pattern (xs ys : list (value * label * label)) (s s' : pyobj) :
  map cell_pattern xs = map cell_pattern ys ->
  exists r, for_each xs kernel_check_cell s = (r, s) /\
            for_each ys kernel_check_cell s' = (r, s').
Proof.
  revert ys. induction xs as [|x xs IH]; intros [|y ys] E; try discriminate E.
  - exists (Returned tt). now split.
  - cbn [map] in E. injection E as Exy E.
    destruct (cell_pattern_decides x y Exy) as [Ha Hf].
    destruct (IH ys E) as (r & Hx & Hy).
    cbn [for_each]. unfold bind.
    rewrite !kernel_check_cell_run, <- Ha, <- Hf.
    destruct (cell_accepted x).
    + exists r. now split.
    + exists (Raised (kernel_cell_failure x)). now split.
Qed.

Lemma combine_map_l {A B C : Type} (f : A -> C) (l : list A) (l' : list B) :
  combine (map f l) l' = map (fun p => (f (fst p), snd p)) (combine l l').
Proof.
  revert l'. induction l as [|a l IH]; intros [|b l']; simpl; try reflexivity.
  now rewrite IH.
Qed.

(** The patterns of the triples of a matrix are a function of its labels and
    of which cells are numbers. *)
Lemma iter_pattern (m : Matrix) :
  map cell_pattern (iter m) =
  flat_map
    (fun p => map (fun q => (fst q, snd q, snd p))
                  (combine (fst p) (cols_labels m)))
    (combine (map (map numeric) (data (mat m))) (rows_labels m)).
Proof.
  unfold iter. rewrite combine_map_l.
  induction (combine (data (mat m)) (rows_labels m)) as [|[row r] ps IH].
  - reflexivity.
  - cbn [flat_map map fst snd]. rewrite map_app, IH. f_equal.
    rewrite combine_map_l, !map_map. apply map_ext.
    intros [v c]. reflexivity.
Qed.

(** X14. The outcome of [_validate_K] on a matrix depends on the shape of the
    array, on the labels, and on which cells are numbers; it depends neither
    on the numbers themselves nor on the element type of the array. *)
Theorem validate_K_ignores_values (k k' : Matrix) :
  shape (mat k) = shape (mat k') ->
  rows_labels k = rows_labels k' ->
  cols_labels k = cols_labels k' ->
  map (map numeric) (data (mat k)) = map (map numeric) (data (mat k')) ->
  outcome _validate_K (ObjMatrix k) = outcome _validate_K (ObjMatrix k').
Proof.
  intros Hshape Hrows Hcols Hdata.
  assert (map cell_pattern (iter k) = map cell_pattern (iter k')) as Hpat
    by (rewrite !iter_pattern, Hdata, Hrows, Hcols; reflexivity).
  destruct (kernel_loop_pattern (iter k) (iter k') (ObjMatrix k) (ObjMatrix k')
              Hpat) as (r & Hk & Hk').
  change (fst (kernel_checks k (ObjMatrix k))
          = fst (kernel_checks k' (ObjMatrix k'))).
  destruct (Nat.eq_dec (n_rows (mat k)) (n_cols (mat k))) as [Hsq|Hsq].
  - assert (n_rows (mat k') = n_cols (mat k')) as Hsq'
      by (unfold n_rows, n_cols in *; congruence).
    rewrite (kernel_checks_square k _ Hsq), (kernel_checks_square k' _ Hsq').
    rewrite <- Hrows, <- Hcols. unfold bind.
    destruct (labels_eqb (cols_labels k) []); [reflexivity|]. cbn [when ret].
    destruct (labels_eqb (rows_labels k) []); [reflexivity|]. cbn [when ret].
    destruct (labels_eqb (rows_labels k) (cols_labels k)); [|reflexivity].
    cbn [when ret negb]. rewrite Hk, Hk'.
    destruct r as [[]|e]; [|reflexivity].
    destruct (negb (unique_len label_eq_dec (rows_labels k)
                    =? length (rows_labels k))%nat); [reflexivity|].
    cbn [when ret].
    destruct (negb (unique_len label_eq_dec (cols_labels k)
                    =? length (cols_labels k))%nat); reflexivity.
  - assert (n_rows (mat k') <> n_cols (mat k')) as Hsq'
      by (unfold n_rows, n_cols in *; congruence).
    rewrite (kernel_checks_not_square k _ Hsq),
            (kernel_checks_not_square k' _ Hsq').
    unfold n_rows, n_cols. now rewrite Hshape.
Qed.

Lemma validate_K_ignores_values_witness :
  outcome _validate_K (ObjMatrix kernel_not_symmetric)
  = outcome _validate_K (ObjMatrix kernel_ABC) /\
  outcome _validate_K (ObjMatrix kernel_not_symmetric) = Returned tt.
Proof.
  assert (outcome _validate_K (ObjMatrix kernel_not_symmetric)
          = outcome _validate_K (ObjMatrix kernel_ABC)) as H.
  { apply (validate_K_ignores_values kernel_not_symmetric kernel_ABC);
      reflexivity. }
  split; [exact H|]. rewrite H. reflexivity.
Defined.
